(** * Image-Processing-Service: the transformation pipeline and its job queue

    A shallow embedding of [src/utils/imageProcessor.js], of the queue
    worker ([utils/queue.js]) and of [src/routes/jobs.js], with the
    properties of the specification stated against it.

    Conventions.
    - JavaScript values are the inductive [value].  A number is the
      rational its literal spells ([Q]); the code modelled compares
      numbers with integer constants and tests them for zero, and does no
      other arithmetic on them here, so no rounding is modelled.  The
      numeric coercion of strings (ToNumber) is outside the model: a
      string used as a number is NaN here (the validation layer converts
      numeric strings before a job is queued).
    - A rejected promise / thrown [Error] is [Throw message].
    - The [sharp] library is a parameter: an instance is the input plus
      the list of calls made on it, rendered by [toBuffer]. *)

From Stdlib Require Import ZArith QArith Qround Ascii String List Permutation Sorted Lia.
From Stdlib Require Import Strings.Byte.
From Stdlib Require Import DecimalString.
From stdpp Require Import base option strings gmap.
Import ListNotations.

Set Warnings "-register-all".
Local Open Scope string_scope.
Local Open Scope Z_scope.

(** ** JavaScript values *)

Module Js.

Definition Buffer := list byte.

Inductive value : Type :=
| VUndefined
| VNull
| VBool (b : bool)
| VNum (q : Q)
| VStr (s : string)
| VBuf (b : Buffer)
| VDate (ms : Z)
| VArr (items : list value)
| VObj (fields : list (string * value)).

(** [field k fs]: the value stored under key [k], [undefined] when absent. *)
Fixpoint field (k : string) (fs : list (string * value)) : value :=
  match fs with
  | [] => VUndefined
  | (k', v) :: fs' => if String.eqb k k' then v else field k fs'
  end.

(** Property access [o.k].  On a primitive it yields [undefined].  (On
    [undefined] and [null] JavaScript throws instead; the payloads the
    routes build carry an object wherever the code dereferences a value
    it has not tested.) *)
Definition get (k : string) (o : value) : value :=
  match o with
  | VObj fs => field k fs
  | _ => VUndefined
  end.

Definition keys (o : value) : list string :=
  match o with
  | VObj fs => map fst fs
  | _ => []
  end.

(** ToBoolean. *)
Definition truthy (v : value) : bool :=
  match v with
  | VUndefined | VNull => false
  | VBool b => b
  | VNum q => negb (Qeq_bool q 0)
  | VStr s => negb (String.eqb s "")
  | VBuf _ | VDate _ | VArr _ | VObj _ => true
  end.

(** ToNumber of the primitive values and of dates; [None] is NaN.
    Strings, arrays and objects are not coerced in this model. *)
Definition to_number (v : value) : option Q :=
  match v with
  | VNull => Some 0%Q
  | VBool b => Some (if b then 1%Q else 0%Q)
  | VNum q => Some q
  | VDate ms => Some (inject_Z ms)
  | _ => None
  end.

(** [a > n] for a number [n]; any comparison with NaN is false. *)
Definition js_gt (a : value) (n : Z) : bool :=
  match to_number a with
  | Some q => negb (Qle_bool q (inject_Z n))
  | None => false
  end.

(** [a || b] *)
Definition js_or (a b : value) : value := if truthy a then a else b.

(** Destructuring default [{ k = d } = o]: the default applies to
    [undefined] only. *)
Definition get_default (k : string) (d : value) (o : value) : value :=
  match get k o with
  | VUndefined => d
  | v => v
  end.

(** [v === s] for a string [s]: strict equality never coerces. *)
Definition strict_eq_string (v : value) (s : string) : bool :=
  match v with
  | VStr s' => String.eqb s' s
  | _ => false
  end.

Definition lower_ascii (c : ascii) : ascii :=
  let n := N_of_ascii c in
  if ((65 <=? n) && (n <=? 90))%N then ascii_of_N (n + 32) else c.

(** [s.toLowerCase()], on the ASCII range. *)
Fixpoint toLowerCase (s : string) : string :=
  match s with
  | EmptyString => EmptyString
  | String c s' => String (lower_ascii c) (toLowerCase s')
  end.

(** Template-literal rendering of an integer. *)
Definition show_Z (n : Z) : string := NilZero.string_of_int (Z.to_int n).

(** Template-literal rendering [`${v}`] of the values that reach one in
    the worker: strings, integers and the two empty values. *)
Definition template (v : value) : string :=
  match v with
  | VStr s => s
  | VUndefined => "undefined"
  | VNull => "null"
  | VBool b => if b then "true" else "false"
  | VNum q => show_Z (Qfloor q)
  | VDate ms => show_Z ms
  | VBuf _ | VArr _ => ""
  | VObj _ => "[object Object]"
  end.

Definition of_option_Z (o : option Z) : value :=
  match o with Some n => VNum (inject_Z n) | None => VUndefined end.

Definition of_option_string (o : option string) : value :=
  match o with Some s => VStr s | None => VUndefined end.

End Js.

Import Js.

(** ** Promises that resolve or reject *)

Inductive result (A : Type) : Type :=
| Ok (a : A)
| Throw (message : string).
Arguments Ok {A} a.
Arguments Throw {A} message.

Definition bind {A B} (r : result A) (k : A -> result B) : result B :=
  match r with
  | Ok a => k a
  | Throw m => Throw m
  end.

(** [try { r } catch (error) { throw new Error(prefix + error.message) }] *)
Definition rethrow {A} (prefix : string) (r : result A) : result A :=
  match r with
  | Ok a => Ok a
  | Throw m => Throw (prefix +:+ m)
  end.

Definition is_ok {A} (r : result A) : bool :=
  match r with Ok _ => true | Throw _ => false end.

Declare Scope result_scope.
Delimit Scope result_scope with result.
Notation "'let?' x ':=' r 'in' k" := (bind r (fun x => k))
  (at level 10, x name, r at level 100, k at level 200) : result_scope.
Local Open Scope result_scope.

(** ** The sharp library, as used by the image processor *)

Module Sharp.

(** The calls the processor makes on a sharp instance, with the arguments
    it passes.  Two calls take an argument computed in floating point from
    a single value of the request; they are recorded with that value:
    [linear a] is [linear(a, 128 * (1 - a))], and
    [composite_tile_dest_in opacity] is the tiled [dest-in] composite of
    the one-pixel buffer [[255, 255, 255, Math.floor(255 * (1 - opacity))]]. *)
Inductive Op : Type :=
| resize (width height fit withoutEnlargement : value)
| resize_width (width : Z)
| extract (left top width height : value)
| rotate (angle : value)
| flip
| flop
| grayscale
| tint (r g b : Z)
| blur (sigma : value)
| sharpen
| modulate (option_name : string) (v : value)
| linear (a : value)
| jpeg (quality progressive : value)
| png (compressionLevel progressive : value)
| webp (quality lossless : value)
| avif (quality : value)
| composite_tile_dest_in (opacity : value)
| composite (input : Buffer) (gravity : value).

(** [sharp(input)] followed by chained calls. *)
Record Instance := { input : value; calls : list Op }.

Definition sharp (input : value) : Instance := {| input := input; calls := [] |}.

Definition call (i : Instance) (op : Op) : Instance :=
  {| input := input i; calls := calls i ++ [op] |}.

(** What [metadata()] reports, restricted to the fields the service
    reads after decoding. *)
Record Metadata := {
  width : Z;
  height : Z;
  format : string;
  space : string;
  hasAlpha : bool
}.

(** The library itself: decoding, applying the calls and encoding. *)
Record Backend := {
  toBuffer : Instance -> result Buffer;
  metadata : value -> result Metadata
}.

End Sharp.

(** ** utils/imageProcessor.js *)

Module ImageProcessor.

(** [parseInt(process.env.X) || d]: NaN (variable unset or not a number)
    and 0 both fall back to the default. *)
Definition parseInt_or (env : option Z) (d : Z) : Z :=
  match env with
  | Some n => if n =? 0 then d else n
  | None => d
  end.

Record Config := { maxDimension : Z; defaultQuality : Z }.

(** The constructor, from [MAX_IMAGE_DIMENSION] and [DEFAULT_QUALITY]. *)
Definition new (MAX_IMAGE_DIMENSION DEFAULT_QUALITY : option Z) : Config :=
  {| maxDimension := parseInt_or MAX_IMAGE_DIMENSION 4000;
     defaultQuality := parseInt_or DEFAULT_QUALITY 80 |}.

Section Processor.

Variable lib : Sharp.Backend.
Variable this : Config.

Import Sharp.

Definition getMetadata (imageBuffer : Buffer) : result Metadata :=
  rethrow "Failed to extract image metadata: "
    (metadata lib (VBuf imageBuffer)).

Definition resize (imageBuffer : Buffer) (options : value) : result Buffer :=
  rethrow "Failed to resize image: "
    (let width := get "width" options in
     let height := get "height" options in
     let fit := get_default "fit" (VStr "inside") options in
     let withoutEnlargement := get_default "withoutEnlargement" (VBool true) options in
     if js_gt width (maxDimension this) || js_gt height (maxDimension this)
     then Throw ("Maximum dimension allowed is " +:+ show_Z (maxDimension this) +:+ "px")
     else
       let sharpInstance := sharp (VBuf imageBuffer) in
       let sharpInstance :=
         if truthy width || truthy height
         then call sharpInstance (Sharp.resize width height fit withoutEnlargement)
         else sharpInstance in
       toBuffer lib sharpInstance).

Definition crop (imageBuffer : Buffer) (options : value) : result Buffer :=
  rethrow "Failed to crop image: "
    (let width := get "width" options in
     let height := get "height" options in
     let x := get_default "x" (VNum 0) options in
     let y := get_default "y" (VNum 0) options in
     if negb (truthy width) || negb (truthy height)
     then Throw "Width and height are required for cropping"
     else toBuffer lib (call (sharp (VBuf imageBuffer)) (extract x y width height))).

Definition rotate (imageBuffer : Buffer) (angle : value) : result Buffer :=
  rethrow "Failed to rotate image: "
    (toBuffer lib (call (sharp (VBuf imageBuffer)) (Sharp.rotate angle))).

Definition flip (imageBuffer : Buffer) : result Buffer :=
  rethrow "Failed to flip image: "
    (toBuffer lib (call (sharp (VBuf imageBuffer)) Sharp.flip)).

Definition mirror (imageBuffer : Buffer) : result Buffer :=
  rethrow "Failed to mirror image: "
    (toBuffer lib (call (sharp (VBuf imageBuffer)) flop)).

(** [typeof v === 'number'] *)
Definition is_number (v : value) : bool :=
  match v with VNum _ => true | _ => false end.

(** [if (c) { i = f(i) }] on the instance being built. *)
Definition when (c : bool) (f : Instance -> Instance) (i : Instance) : Instance :=
  if c then f i else i.

Definition applyFilters (imageBuffer : Buffer) (filters : value) : result Buffer :=
  rethrow "Failed to apply filters: "
    (let sharpInstance := sharp (VBuf imageBuffer) in
     let sharpInstance :=
       when (truthy (get "grayscale" filters))
            (fun i => call i grayscale) sharpInstance in
     let sharpInstance :=
       when (truthy (get "sepia" filters))
            (fun i => call i (tint 255 238 196)) sharpInstance in
     let sharpInstance :=
       when (truthy (get "blur" filters))
            (fun i =>
               let blurAmount :=
                 if is_number (get "blur" filters) then get "blur" filters else VNum 1 in
               call i (blur blurAmount)) sharpInstance in
     let sharpInstance :=
       when (truthy (get "sharpen" filters))
            (fun i => call i sharpen) sharpInstance in
     let sharpInstance :=
       when (truthy (get "brightness" filters))
            (fun i => call i (modulate "brightness" (get "brightness" filters)))
            sharpInstance in
     let sharpInstance :=
       when (truthy (get "contrast" filters))
            (fun i =>
               let contrastFactor := get "contrast" filters in
               call i (linear contrastFactor))
            sharpInstance in
     let sharpInstance :=
       when (truthy (get "saturation" filters))
            (fun i => call i (modulate "saturation" (get "saturation" filters)))
            sharpInstance in
     toBuffer lib sharpInstance).

(** [format.toLowerCase()] exists on strings only; on anything else the
    call itself throws a TypeError, which the [catch] wraps like any
    other error. *)
Definition changeFormat (imageBuffer : Buffer) (format : value) (options : value)
  : result Buffer :=
  rethrow "Failed to convert image format: "
    (let sharpInstance := sharp (VBuf imageBuffer) in
     match format with
     | VStr fmt =>
         let lower := toLowerCase fmt in
         let quality := js_or (get "quality" options) (VNum (inject_Z (defaultQuality this))) in
         if String.eqb lower "jpeg" || String.eqb lower "jpg" then
           toBuffer lib (call sharpInstance
             (jpeg quality (js_or (get "progressive" options) (VBool false))))
         else if String.eqb lower "png" then
           toBuffer lib (call sharpInstance
             (png (js_or (get "compressionLevel" options) (VNum 6))
                  (js_or (get "progressive" options) (VBool false))))
         else if String.eqb lower "webp" then
           toBuffer lib (call sharpInstance
             (webp quality (js_or (get "lossless" options) (VBool false))))
         else if String.eqb lower "avif" then
           toBuffer lib (call sharpInstance (avif quality))
         else Throw ("Unsupported format: " +:+ fmt)
     | _ => Throw "format.toLowerCase is not a function"
     end).

Definition compress (imageBuffer : Buffer) (options : value) : result Buffer :=
  rethrow "Failed to compress image: "
    (let quality :=
       get_default "quality" (VNum (inject_Z (defaultQuality this))) options in
     let format := get "format" options in
     let? metadata := metadata lib (VBuf imageBuffer) in
     let originalFormat := js_or format (VStr (Sharp.format metadata)) in
     changeFormat imageBuffer originalFormat (VObj [("quality", quality)])).

(** [options = {}] in a parameter list: the default replaces [undefined]. *)
Definition default_arg (d : value) (v : value) : value :=
  match v with VUndefined => d | _ => v end.

Definition addWatermark (imageBuffer : Buffer) (watermarkBuffer : value) (options : value)
  : result Buffer :=
  rethrow "Failed to add watermark: "
    (let options := default_arg (VObj []) options in
     let gravity := get_default "gravity" (VStr "southeast") options in
     let opacity := get_default "opacity" (VNum (1 # 2)) options in
     let? imageMetadata := metadata lib (VBuf imageBuffer) in
     (* Math.floor(width * 0.2), exact on integer widths *)
     let watermarkWidth := Sharp.width imageMetadata / 5 in
     let? processedWatermark :=
       toBuffer lib
         (call (call (call (sharp watermarkBuffer)
                  (Sharp.resize_width watermarkWidth))
                  (composite_tile_dest_in opacity))
                  (png VUndefined VUndefined)) in
     toBuffer lib (call (sharp (VBuf imageBuffer)) (composite processedWatermark gravity))).

(** [if (c) { processedBuffer = await f(processedBuffer) }] *)
Definition step (c : bool) (f : Buffer -> result Buffer) (processedBuffer : Buffer)
  : result Buffer :=
  if c then f processedBuffer else Ok processedBuffer.

Definition transform (imageBuffer : Buffer) (transformations : value) : result Buffer :=
  rethrow "Failed to transform image: "
    (let processedBuffer := imageBuffer in
     let? processedBuffer :=
       step (truthy (get "rotate" transformations))
            (fun b => rotate b (get "rotate" transformations)) processedBuffer in
     let? processedBuffer :=
       step (truthy (get "flip" transformations)) flip processedBuffer in
     let? processedBuffer :=
       step (truthy (get "mirror" transformations)) mirror processedBuffer in
     let? processedBuffer :=
       step (truthy (get "crop" transformations))
            (fun b => crop b (get "crop" transformations)) processedBuffer in
     let? processedBuffer :=
       step (truthy (get "resize" transformations))
            (fun b => resize b (get "resize" transformations)) processedBuffer in
     let? processedBuffer :=
       step (truthy (get "filters" transformations))
            (fun b => applyFilters b (get "filters" transformations)) processedBuffer in
     let? processedBuffer :=
       step (truthy (get "watermark" transformations)
             && truthy (get "image" (get "watermark" transformations)))
            (fun b => addWatermark b
                        (get "image" (get "watermark" transformations))
                        (get "options" (get "watermark" transformations)))
            processedBuffer in
     let? processedBuffer :=
       step (truthy (get "compress" transformations))
            (fun b => compress b (get "compress" transformations)) processedBuffer in
     let? processedBuffer :=
       step (truthy (get "format" transformations))
            (fun b => changeFormat b (get "format" transformations)
                        (js_or (get "formatOptions" transformations) (VObj [])))
            processedBuffer in
     Ok processedBuffer).

End Processor.

End ImageProcessor.

(** ** The Bull queue, as far as the service relies on it

    The queue is the list of the jobs it holds, oldest first.  The
    transitions below follow Bull's documented contract for the options
    the service sets ([attempts], [removeOnComplete], [removeOnFail]) and
    for [clean(grace, status)]. *)

Module Bull.

Inductive JobState : Type := waiting | active | completed | failed | delayed.

Definition JobState_eqb (a b : JobState) : bool :=
  match a, b with
  | waiting, waiting | active, active | completed, completed
  | failed, failed | delayed, delayed => true
  | _, _ => false
  end.

Definition state_name (s : JobState) : string :=
  match s with
  | waiting => "waiting" | active => "active" | completed => "completed"
  | failed => "failed" | delayed => "delayed"
  end.

Record JobOptions := {
  attempts : Z;
  backoff_type : string;
  backoff_delay : Z;
  removeOnComplete : bool;
  removeOnFail : bool
}.

Record Job := {
  id : string;
  name : string;
  data : value;
  opts : JobOptions;
  _progress : Z;
  timestamp : Z;
  processedOn : option Z;
  finishedOn : option Z;
  failedReason : option string;
  returnvalue : value;
  attemptsMade : Z;
  state : JobState
}.

Definition Queue := list Job.

(** [queue.add(name, data, opts)] at time [now]; [jobId] is the id the
    queue hands out. *)
Definition add (name : string) (data : value) (opts : JobOptions)
    (now : Z) (jobId : string) (q : Queue) : Job * Queue :=
  let job := {| id := jobId; name := name; data := data; opts := opts;
                _progress := 0; timestamp := now;
                processedOn := None; finishedOn := None; failedReason := None;
                returnvalue := VNull; attemptsMade := 0; state := waiting |} in
  (job, (q ++ [job])%list).

(** [queue.getJob(id)] *)
Definition getJob (jobId : string) (q : Queue) : option Job :=
  find (fun j => String.eqb (id j) jobId) q.

Definition set_job (j : Job) (p : Z) (processed finished : option Z)
    (reason : option string) (ret : value) (made : Z) (s : JobState) : Job :=
  {| id := id j; name := name j; data := data j; opts := opts j;
     _progress := p; timestamp := timestamp j;
     processedOn := processed; finishedOn := finished; failedReason := reason;
     returnvalue := ret; attemptsMade := made; state := s |}.

(** A worker takes the job: it becomes active and [processedOn] is set. *)
Definition moveToActive (now : Z) (j : Job) : Job :=
  set_job j (_progress j) (Some now) (finishedOn j) (failedReason j)
          (returnvalue j) (attemptsMade j) active.

(** The processor resolved: the job is dropped when [removeOnComplete]
    is set and moves to the completed set otherwise. *)
Definition moveToCompleted (ret : value) (now : Z) (j : Job) : option Job :=
  if removeOnComplete (opts j) then None
  else Some (set_job j (_progress j) (processedOn j) (Some now) (failedReason j)
                     ret (attemptsMade j) completed).

(** The processor rejected: the job is retried while attempts remain;
    after the last one it is dropped when [removeOnFail] is set and moves
    to the failed set otherwise. *)
Definition moveToFailed (reason : string) (now : Z) (j : Job) : option Job :=
  let made := attemptsMade j + 1 in
  if made <? attempts (opts j)
  then Some (set_job j (_progress j) (processedOn j) (finishedOn j) (Some reason)
                     (returnvalue j) made delayed)
  else if removeOnFail (opts j) then None
  else Some (set_job j (_progress j) (processedOn j) (Some now) (Some reason)
                     (returnvalue j) made failed).

(** Replace ([Some]) or delete ([None]) the job with the given id. *)
Fixpoint update (jobId : string) (f : Job -> option Job) (q : Queue) : Queue :=
  match q with
  | [] => []
  | j :: q' =>
      if String.eqb (id j) jobId
      then match f j with Some j' => j' :: update jobId f q' | None => update jobId f q' end
      else j :: update jobId f q'
  end.

(** The instant [clean] compares with the grace period: when the job
    finished, else when it was last taken, else when it was added. *)
Definition age_reference (j : Job) : Z :=
  match finishedOn j with
  | Some t => t
  | None => match processedOn j with Some t => t | None => timestamp j end
  end.

(** [queue.clean(grace, status)] at time [now]: removes the jobs in
    [status] that are older than the grace period. *)
Definition clean (grace : Z) (status : JobState) (now : Z) (q : Queue) : Queue :=
  List.filter (fun j => negb (JobState_eqb (state j) status
                         && (age_reference j <? now - grace))) q.

End Bull.

(** ** utils/s3Service.js and the stores behind the worker

    The world [W] (bucket contents, image collection, user collection) is
    reached only through the calls below.  Reads return no new world. The
    [User] model is not part of the sources at hand: its documents and its
    [updateStorageUsage] method are parameters. *)

Module Store.

Record ImageDoc := {
  _id : string;
  userId : value;
  originalName : string;
  filename : string;
  mimeType : string;
  size : Z;
  dimensions : Z * Z;
  s3Key : string;
  s3Bucket : value;
  publicUrl : value;
  colorSpace : string;
  hasAlpha : bool;
  format : option string;
  transformations : list (string * value)
}.

Definition set_size (image : ImageDoc) (n : Z) : ImageDoc :=
  {| _id := _id image; userId := userId image; originalName := originalName image;
     filename := filename image; mimeType := mimeType image; size := n;
     dimensions := dimensions image; s3Key := s3Key image; s3Bucket := s3Bucket image;
     publicUrl := publicUrl image; colorSpace := colorSpace image;
     hasAlpha := hasAlpha image; format := format image;
     transformations := transformations image |}.

Class Collaborators (W User : Type) := {
  (** [s3Client.send(new PutObjectCommand({Bucket, Key, Body, ContentType}))] *)
  s3_put : string -> Buffer -> string -> W -> result unit * W;
  (** [s3Client.send(new GetObjectCommand({Bucket, Key}))], body collected *)
  s3_get : string -> W -> result Buffer;
  Image_findById : value -> W -> result (option ImageDoc);
  (** [doc.save()] *)
  Image_save : ImageDoc -> W -> result unit * W;
  User_findById : value -> W -> result (option User);
  (** [user.updateStorageUsage(delta)] *)
  updateStorageUsage : User -> Z -> W -> result unit * W
}.

End Store.

Module S3Service.

Record Config := { bucketName : string; region : string }.

Section Service.

Context {W User : Type} `{!Store.Collaborators W User}.
Variable this : Config.

Definition generatePublicUrl (key : string) : string :=
  if String.eqb (region this) "us-east-1"
  then "https://" +:+ bucketName this +:+ ".s3.amazonaws.com/" +:+ key
  else "https://" +:+ bucketName this +:+ ".s3." +:+ region this
       +:+ ".amazonaws.com/" +:+ key.

Definition uploadFile (fileBuffer : Buffer) (key contentType : string) (w : W)
  : result value * W :=
  match Store.s3_put key fileBuffer contentType w with
  | (Ok _, w') =>
      (Ok (VObj [("success", VBool true);
                 ("key", VStr key);
                 ("bucket", VStr (bucketName this));
                 ("publicUrl", VStr (generatePublicUrl key))]), w')
  | (Throw m, w') => (Throw ("Failed to upload file to S3: " +:+ m), w')
  end.

Definition downloadFile (key : string) (w : W) : result Buffer :=
  rethrow "Failed to download file from S3: " (Store.s3_get key w).

End Service.

End S3Service.

(** ** utils/queue.js: the two processors and the exported helpers *)

Module Queue.

(** What a processor run touches: the world and the job's progress
    reports, in the order [job.progress(n)] was called. *)
Record State (W : Type) := { world : W; reported : list Z }.
Arguments world {W} s.
Arguments reported {W} s.

(** An [async] function body: it resolves or rejects, and keeps the
    effects made up to that point. *)
Definition M (W A : Type) : Type := State W -> result A * State W.

#[export] Instance M_ret {W} : MRet (M W) := fun A a s => (Ok a, s).

#[export] Instance M_bind {W} : MBind (M W) := fun A B k c s =>
  match c s with
  | (Ok a, s') => k a s'
  | (Throw m, s') => (Throw m, s')
  end.

Definition throw {W A} (message : string) : M W A := fun s => (Throw message, s).

(** [job.progress(n)] *)
Definition progress {W} (n : Z) : M W unit := fun s =>
  (Ok tt, {| world := world s; reported := (reported s ++ [n])%list |}).

Definition read {W A} (f : W -> result A) : M W A := fun s => (f (world s), s).

Definition write {W A} (f : W -> result A * W) : M W A := fun s =>
  let (r, w) := f (world s) in (r, {| world := w; reported := reported s |}).

Definition lift {W A} (r : result A) : M W A := fun s => (r, s).

Definition formatMimeTypes : list (string * string) :=
  [("jpeg", "image/jpeg"); ("jpg", "image/jpeg"); ("png", "image/png");
   ("webp", "image/webp"); ("avif", "image/avif")].

Fixpoint lookup_string (k : string) (table : list (string * string)) : option string :=
  match table with
  | [] => None
  | (k', v) :: t => if String.eqb k k' then Some v else lookup_string k t
  end.

(** [image.size * 0.8 > n], for byte counts: the double-precision product
    and the exact one order every integer below 2^50 the same way. *)
Definition reduced_enough (n imageSize : Z) : bool :=
  negb (Qle_bool (inject_Z imageSize * (8 # 10)) (inject_Z n)).

Definition transformOptions : Bull.JobOptions :=
  {| Bull.attempts := 3; Bull.backoff_type := "exponential"; Bull.backoff_delay := 2000;
     Bull.removeOnComplete := true; Bull.removeOnFail := false |}.

Definition optimizeOptions : Bull.JobOptions :=
  {| Bull.attempts := 2; Bull.backoff_type := "exponential"; Bull.backoff_delay := 1000;
     Bull.removeOnComplete := true; Bull.removeOnFail := false |}.

Definition addTransformJob (imageId transformations userId : value)
  : Z -> string -> Bull.Queue -> Bull.Job * Bull.Queue :=
  Bull.add "transform"
    (VObj [("imageId", imageId); ("transformations", transformations); ("userId", userId)])
    transformOptions.

Definition addOptimizeJob (imageId : value)
  : Z -> string -> Bull.Queue -> Bull.Job * Bull.Queue :=
  Bull.add "optimize" (VObj [("imageId", imageId)]) optimizeOptions.

Definition retention : Z := 24 * 60 * 60 * 1000.

(** The two [clean] calls made when the module is loaded, at time [now]. *)
Definition clean_on_load (now : Z) (q : Bull.Queue) : Bull.Queue :=
  Bull.clean retention Bull.failed now (Bull.clean retention Bull.completed now q).

Section Processors.

Context {W User : Type} `{!Store.Collaborators W User}.
Variable lib : Sharp.Backend.
Variable imageProcessor : ImageProcessor.Config.
Variable s3Service : S3Service.Config.

Import Store.

(** [imageProcessingQueue.process('transform', ...)]; [now] is what
    [Date.now()] returns and [newId] the [_id] of the document created. *)
Definition process_transform (now : Z) (newId : string) (job_data : value) : M W value :=
  let imageId := get "imageId" job_data in
  let transformations := get "transformations" job_data in
  let userId := get "userId" job_data in
  progress 10;;
  found ← read (Image_findById imageId);
  match found with
  | None => throw "Image not found"
  | Some image =>
    progress 20;;
    originalBuffer ← read (S3Service.downloadFile (s3Key image));
    progress 40;;
    transformedBuffer ←
      lift (ImageProcessor.transform lib imageProcessor originalBuffer transformations);
    progress 60;;
    let transformedFilename := "transformed_" +:+ show_Z now +:+ "_" +:+ filename image in
    let transformedS3Key :=
      "images/" +:+ template userId +:+ "/transformed/" +:+ transformedFilename in
    mimeType ←
      (if truthy (get "format" transformations)
       then match get "format" transformations with
            | VStr f =>
                mret (default (Store.mimeType image)
                              (lookup_string (toLowerCase f) formatMimeTypes))
            | _ => throw "transformations.format.toLowerCase is not a function"
            end
       else mret (Store.mimeType image));
    progress 70;;
    uploadResult ←
      write (S3Service.uploadFile s3Service transformedBuffer transformedS3Key mimeType);
    progress 80;;
    transformedMetadata ← lift (ImageProcessor.getMetadata lib transformedBuffer);
    let transformedImage :=
      {| _id := newId;
         userId := userId;
         originalName := "transformed_" +:+ originalName image;
         filename := transformedFilename;
         mimeType := mimeType;
         size := Z.of_nat (length transformedBuffer);
         dimensions := (Sharp.width transformedMetadata, Sharp.height transformedMetadata);
         s3Key := transformedS3Key;
         s3Bucket := get "bucket" uploadResult;
         publicUrl := get "location" uploadResult;
         colorSpace := Sharp.space transformedMetadata;
         hasAlpha := Sharp.hasAlpha transformedMetadata;
         format := Some (Sharp.format transformedMetadata);
         transformations :=
           map (fun type => (type, get type transformations)) (keys transformations) |} in
    write (Image_save transformedImage);;
    progress 90;;
    user ← read (User_findById userId);
    match user with
    | None => throw "Cannot read properties of null (reading 'updateStorageUsage')"
    | Some user =>
      write (updateStorageUsage user (Z.of_nat (length transformedBuffer)));;
      progress 100;;
      mret (VObj [("success", VBool true);
                  ("transformedImageId", VStr (_id transformedImage));
                  ("publicUrl", publicUrl transformedImage)])
    end
  end.

(** [imageProcessingQueue.process('optimize', ...)] *)
Definition process_optimize (job_data : value) : M W value :=
  let imageId := get "imageId" job_data in
  progress 10;;
  found ← read (Image_findById imageId);
  match found with
  | None => throw "Image not found"
  | Some image =>
    progress 30;;
    originalBuffer ← read (S3Service.downloadFile (s3Key image));
    progress 50;;
    optimizedBuffer ←
      lift (ImageProcessor.compress lib imageProcessor originalBuffer
              (VObj [("quality", VNum 85); ("format", of_option_string (format image))]));
    progress 70;;
    (if reduced_enough (Z.of_nat (length optimizedBuffer)) (size image)
     then
       write (S3Service.uploadFile s3Service optimizedBuffer (s3Key image)
                (Store.mimeType image));;
       let sizeDifference := size image - Z.of_nat (length optimizedBuffer) in
       let image := set_size image (Z.of_nat (length optimizedBuffer)) in
       write (Image_save image);;
       user ← read (User_findById (userId image));
       match user with
       | None => throw "Cannot read properties of null (reading 'updateStorageUsage')"
       | Some user => write (updateStorageUsage user (- sizeDifference))
       end
     else mret tt);;
    progress 100;;
    mret (VObj [("success", VBool true); ("optimized", VBool true)])
  end.

(** The processor registered under the job's name. *)
Definition processor (now : Z) (newId : string) (job : Bull.Job) : M W value :=
  if String.eqb (Bull.name job) "transform" then process_transform now newId (Bull.data job)
  else if String.eqb (Bull.name job) "optimize" then process_optimize (Bull.data job)
  else throw ("Missing process handler for job type " +:+ Bull.name job).

(** One attempt: the processor is run on a fresh progress trace. *)
Definition attempt (now : Z) (newId : string) (job : Bull.Job) (w : W)
  : result value * State W :=
  processor now newId job {| world := w; reported := [] |}.

(** A worker takes job [jobId] at time [now] and settles it at [later]:
    the last progress reported is stored on the job, which then moves
    according to how the processor ended. *)
Definition work (now later : Z) (newId jobId : string) (q : Bull.Queue) (w : W)
  : Bull.Queue * W :=
  match Bull.getJob jobId q with
  | None => (q, w)
  | Some job =>
      let (r, s) := attempt now newId (Bull.moveToActive now job) w in
      let settle (j : Bull.Job) :=
        let j := Bull.moveToActive now j in
        let j := Bull.set_job j (List.last (reported s) (Bull._progress j))
                   (Bull.processedOn j) (Bull.finishedOn j) (Bull.failedReason j)
                   (Bull.returnvalue j) (Bull.attemptsMade j) (Bull.state j) in
        match r with
        | Ok ret => Bull.moveToCompleted ret later j
        | Throw m => Bull.moveToFailed m later j
        end in
      (Bull.update jobId settle q, world s)
  end.

End Processors.

End Queue.

(** ** routes/jobs.js *)

Module JobsRoutes.

Record Response := { status : Z; body : value }.

(** [t ? new Date(t) : null] *)
Definition date_or_null (t : option Z) : value :=
  match t with
  | Some ms => if ms =? 0 then VNull else VDate ms
  | None => VNull
  end.

(** The projection of a job both handlers send. *)
Definition job_json (job : Bull.Job) : value :=
  VObj [("id", VStr (Bull.id job));
        ("type", VStr (Bull.name job));
        ("state", VStr (Bull.state_name (Bull.state job)));
        ("progress", VNum (inject_Z (Bull._progress job)));
        ("data", Bull.data job);
        ("createdAt", VDate (Bull.timestamp job));
        ("processedOn", date_or_null (Bull.processedOn job));
        ("finishedOn", date_or_null (Bull.finishedOn job));
        ("failedReason", of_option_string (Bull.failedReason job))].

(** [GET /api/jobs/:id], behind [auth]: [user_id] is [req.user.id] and
    [id] is [req.params.id]. *)
Definition get_job (user_id : string) (id : string) (q : Bull.Queue) : Response :=
  match Bull.getJob id q with
  | None =>
      {| status := 404;
         body := VObj [("success", VBool false); ("message", VStr "Job not found")] |}
  | Some job =>
      {| status := 200;
         body := VObj [("success", VBool true);
                       ("data", VObj [("job", job_json job)])] |}
  end.

(** The ownership filter of the listing:
    [job.data && job.data.userId === req.user.id.toString()] *)
Definition owned_by (user_id : string) (job : Bull.Job) : bool :=
  truthy (Bull.data job) && strict_eq_string (get "userId" (Bull.data job)) user_id.

Definition userJobs (user_id : string) (jobs : list Bull.Job) : list Bull.Job :=
  List.filter (owned_by user_id) jobs.

(** [GET /api/jobs], behind [auth], from the point where
    [imageProcessingQueue.getJobs(...)] has resolved to [jobs];
    [currentPage] is [parseInt(page)]. *)
Definition list_jobs (user_id : string) (currentPage : value) (jobs : list Bull.Job)
  : Response :=
  let userJobs := userJobs user_id jobs in
  let jobsData := map job_json userJobs in
  {| status := 200;
     body := VObj [("success", VBool true);
                   ("data", VObj [("jobs", VArr jobsData);
                                  ("pagination",
                                   VObj [("currentPage", currentPage);
                                         ("totalJobs",
                                          VNum (inject_Z (Z.of_nat (length userJobs))))])])] |}.

End JobsRoutes.

(** ** middleware/upload.js: the file filter *)

Module Upload.

Definition default_allowedTypes : list string :=
  ["image/jpeg"; "image/jpg"; "image/png"; "image/webp"; "image/gif"].

(** [fileFilter]: [ALLOWED_FILE_TYPES] is the environment variable split
    at commas, when it is set; the result is whether the upload is
    accepted. *)
Definition fileFilter (ALLOWED_FILE_TYPES : option (list string)) (mimetype : string) : bool :=
  let allowedTypes := default default_allowedTypes ALLOWED_FILE_TYPES in
  existsb (String.eqb mimetype) allowedTypes.

End Upload.

(** ** In-memory collaborators

    Stand-ins for S3, MongoDB and sharp on which the processors can be
    run: the bucket and the two collections are finite maps, and the
    codec recognises a format by the first byte of a buffer. *)

Module Memory.

Record User := { user_id : string; storageUsed : Z }.

Record World := {
  bucket : gmap string (Buffer * string);
  images : gmap string Store.ImageDoc;
  users : gmap string User
}.

Definition id_of (v : value) : option string :=
  match v with VStr s => Some s | _ => None end.

Definition s3_put (key : string) (body : Buffer) (contentType : string) (w : World)
  : result unit * World :=
  (Ok tt, {| bucket := <[key := (body, contentType)]> (bucket w);
             images := images w; users := users w |}).

Definition s3_get (key : string) (w : World) : result Buffer :=
  match bucket w !! key with
  | Some (body, _) => Ok body
  | None => Throw "The specified key does not exist."
  end.

Definition Image_findById (imageId : value) (w : World) : result (option Store.ImageDoc) :=
  Ok (id ← id_of imageId; images w !! id).

Definition Image_save (doc : Store.ImageDoc) (w : World) : result unit * World :=
  (Ok tt, {| bucket := bucket w;
             images := <[Store._id doc := doc]> (images w); users := users w |}).

Definition User_findById (userId : value) (w : World) : result (option User) :=
  Ok (id ← id_of userId; users w !! id).

(** Modelled from the spec: the [User] model (models/User.js) is not among
    the sources.  The spec describes its usage mutator as a per-user
    storage-usage increment/decrement. *)
Definition updateStorageUsage (user : User) (delta : Z) (w : World) : result unit * World :=
  (Ok tt, {| bucket := bucket w; images := images w;
             users := <[user_id user :=
                          {| user_id := user_id user;
                             storageUsed := storageUsed user + delta |}]> (users w) |}).

#[global] Instance collaborators : Store.Collaborators World User := {|
  Store.s3_put := s3_put;
  Store.s3_get := s3_get;
  Store.Image_findById := Image_findById;
  Store.Image_save := Image_save;
  Store.User_findById := User_findById;
  Store.updateStorageUsage := updateStorageUsage
|}.

(** The format a buffer starts with. *)
Definition sniff (b : Buffer) : option string :=
  match b with
  | x89 :: _ => Some "png"
  | xff :: _ => Some "jpeg"
  | x52 :: _ => Some "webp"
  | x47 :: _ => Some "gif"
  | _ => None
  end.

Definition metadata (input : value) : result Sharp.Metadata :=
  match input with
  | VBuf b =>
      match sniff b with
      | Some f => Ok {| Sharp.width := 100; Sharp.height := 100; Sharp.format := f;
                        Sharp.space := "srgb"; Sharp.hasAlpha := false |}
      | None => Throw "Input buffer contains unsupported image format"
      end
  | _ => Throw "Input file is missing"
  end.

Definition is_encoder (op : Sharp.Op) : bool :=
  match op with
  | Sharp.jpeg _ _ | Sharp.png _ _ | Sharp.webp _ _ | Sharp.avif _ => true
  | _ => false
  end.

(** A codec whose encoders keep [percent]% of the bytes they are given
    and whose other operations keep the buffer as it is. *)
Definition toBuffer (percent : Z) (i : Sharp.Instance) : result Buffer :=
  match Sharp.input i with
  | VBuf b =>
      match sniff b with
      | Some _ =>
          if existsb is_encoder (Sharp.calls i)
          then Ok (firstn (Z.to_nat (Z.of_nat (length b) * percent / 100)) b)
          else Ok b
      | None => Throw "Input buffer contains unsupported image format"
      end
  | _ => Throw "Input file is missing"
  end.

Definition sharp (percent : Z) : Sharp.Backend :=
  {| Sharp.toBuffer := toBuffer percent; Sharp.metadata := metadata |}.

End Memory.

(** * Definitions used by the statements *)

Import Sharp.

(** ** The pipeline as the specification words it

    "rotate → flip → mirror → crop → resize → filters → watermark →
    compress → format conversion", each stage run when its field is set. *)

Module PipelineSpec.

Inductive Stage : Type :=
| Rotate | Flip | Mirror | Crop | Resize | Filters | Watermark | Compress | FormatConversion.

Definition precedence : list Stage :=
  [Rotate; Flip; Mirror; Crop; Resize; Filters; Watermark; Compress; FormatConversion].

(** The field of the specification a stage reads. *)
Definition field_of (s : Stage) : string :=
  match s with
  | Rotate => "rotate" | Flip => "flip" | Mirror => "mirror" | Crop => "crop"
  | Resize => "resize" | Filters => "filters" | Watermark => "watermark"
  | Compress => "compress" | FormatConversion => "format"
  end.

(** A stage is requested when its field holds a set (truthy) value; the
    watermark also needs its overlay. *)
Definition requested (t : value) (s : Stage) : bool :=
  match s with
  | Watermark => truthy (get "watermark" t) && truthy (get "image" (get "watermark" t))
  | _ => truthy (get (field_of s) t)
  end.

Definition plan (t : value) : list Stage := List.filter (requested t) precedence.

Section Run.

Variable lib : Backend.
Variable this : ImageProcessor.Config.

Definition apply_stage (t : value) (s : Stage) (b : Buffer) : result Buffer :=
  match s with
  | Rotate => ImageProcessor.rotate lib b (get "rotate" t)
  | Flip => ImageProcessor.flip lib b
  | Mirror => ImageProcessor.mirror lib b
  | Crop => ImageProcessor.crop lib b (get "crop" t)
  | Resize => ImageProcessor.resize lib this b (get "resize" t)
  | Filters => ImageProcessor.applyFilters lib b (get "filters" t)
  | Watermark =>
      ImageProcessor.addWatermark lib b (get "image" (get "watermark" t))
        (get "options" (get "watermark" t))
  | Compress => ImageProcessor.compress lib this b (get "compress" t)
  | FormatConversion =>
      ImageProcessor.changeFormat lib this b (get "format" t)
        (js_or (get "formatOptions" t) (VObj []))
  end.

(** Run the stages of a plan in order, stopping at the first failure. *)
Fixpoint run (t : value) (stages : list Stage) (b : Buffer) : result Buffer :=
  match stages with
  | [] => Ok b
  | s :: rest => let? b' := apply_stage t s b in run t rest b'
  end.

Definition pipeline (b : Buffer) (t : value) : result Buffer :=
  rethrow "Failed to transform image: " (run t (plan t) b).

End Run.

End PipelineSpec.

(** ** Sample inputs *)

Definition sample_buffer : Buffer := [x89; x50; x4e; x47].

Definition sample_spec : list (string * value) :=
  [("format", VStr "webp");
   ("resize", VObj [("width", VNum 800); ("height", VNum 600)]);
   ("rotate", VNum 90)].

(** A specification that asks for a watermark and carries no overlay. *)
Definition watermark_without_overlay (t : value) : Prop :=
  truthy (get "watermark" t) = true
  /\ truthy (get "image" (get "watermark" t)) = false.

Definition watermark_text_only : value :=
  VObj [("watermark", VObj [("text", VStr "logo");
                            ("options", VObj [("gravity", VStr "southeast")])])].

(** The processor as constructed when [MAX_IMAGE_DIMENSION] and
    [DEFAULT_QUALITY] are not set. *)
Definition imageProcessor : ImageProcessor.Config := ImageProcessor.new None None.

Import Queue Store.

(** The progress values of the transform processor, in program order. *)
Definition checkpoints : list Z := [10; 20; 40; 60; 70; 80; 90; 100].

(** ** Fixtures: one user, one stored image *)

Module Fixture.

Definition s3Service : S3Service.Config :=
  {| S3Service.bucketName := "images-bucket"; S3Service.region := "us-east-1" |}.

(** A stored image of 100 bytes whose first byte is [magic]. *)
Definition bytes (magic : byte) : Buffer := magic :: repeat x00 99.

Definition image (magic : byte) (mime fmt : string) : ImageDoc :=
  {| _id := "img1"; userId := VStr "alice"; originalName := "cat";
     filename := "1700000000000-cat"; mimeType := mime; size := 100;
     dimensions := (100, 100); s3Key := "images/alice/1700000000000-cat";
     s3Bucket := VStr "images-bucket";
     publicUrl := VStr "https://images-bucket.s3.amazonaws.com/images/alice/1700000000000-cat";
     colorSpace := "srgb"; hasAlpha := false; format := Some fmt;
     transformations := [] |}.

Definition world (magic : byte) (mime fmt : string) : Memory.World :=
  {| Memory.bucket := {[ "images/alice/1700000000000-cat" := (bytes magic, mime) ]};
     Memory.images := {[ "img1" := image magic mime fmt ]};
     Memory.users := {[ "alice" := {| Memory.user_id := "alice";
                                      Memory.storageUsed := 100 |} ]} |}.

Definition png_world : Memory.World := world x89 "image/png" "png".
Definition gif_world : Memory.World := world x47 "image/gif" "gif".

Definition transform_data : value :=
  VObj [("imageId", VStr "img1");
        ("transformations",
         VObj [("resize", VObj [("width", VNum 800); ("height", VNum 600)]);
               ("format", VStr "webp");
               ("filters", VObj [("grayscale", VBool true)])]);
        ("userId", VStr "alice")].

Definition optimize_data : value := VObj [("imageId", VStr "img1")].

End Fixture.

Definition transform_job : Bull.Job :=
  fst (addTransformJob (VStr "img1") (get "transformations" Fixture.transform_data)
         (VStr "alice") 1700000000500 "1" []).

(** What the optimize processor returns. *)
Definition optimize_payload : value :=
  VObj [("success", VBool true); ("optimized", VBool true)].

Definition unsupported_gif : string :=
  "Failed to compress image: Failed to convert image format: Unsupported format: gif".

Definition optimize_job : Bull.Job :=
  fst (addOptimizeJob (VStr "img1") 1700000000600 "2" []).

Import JobsRoutes.

(** The queue after alice has submitted one transform job. *)
Definition alice_queue : Bull.Queue :=
  snd (addTransformJob (VStr "img1") (get "transformations" Fixture.transform_data)
         (VStr "alice") 1700000000500 "1" []).

(** The jobs array of a listing response. *)
Definition listed (r : Response) : list value :=
  match get "jobs" (get "data" (body r)) with
  | VArr items => items
  | _ => []
  end.

Definition mixed_queue : Bull.Queue :=
  snd (addOptimizeJob (VStr "img1") 1700000000600 "2" alice_queue).

(** A world with nothing in it: every attempt fails on the missing image. *)
Definition empty_world : Memory.World :=
  {| Memory.bucket := ∅; Memory.images := ∅; Memory.users := ∅ |}.

(** Alice's transform job after three failed attempts, settled at
    1700000003000. *)
Definition exhausted_queue : Bull.Queue :=
  let run now q :=
    fst (work (Memory.sharp 100) imageProcessor Fixture.s3Service
           now (now + 1000) "img2" "1" q empty_world) in
  run 1700000002000 (run 1700000001000 (run 1700000000600 alice_queue)).

(** * Further parts of the service *)

(** ** String helpers of the JavaScript runtime *)

Module JsString.

(** White space removed by [trim], on the ASCII range: tab, line feed,
    vertical tab, form feed, carriage return and space. *)
Definition is_space (c : ascii) : bool :=
  let n := N_of_ascii c in
  (((9 <=? n) && (n <=? 13)) || (n =? 32))%N.

Fixpoint trimStart (s : string) : string :=
  match s with
  | String c s' => if is_space c then trimStart s' else s
  | EmptyString => EmptyString
  end.

Fixpoint trimEnd (s : string) : string :=
  match s with
  | String c s' =>
      let t := trimEnd s' in
      if is_space c && String.eqb t "" then EmptyString else String c t
  | EmptyString => EmptyString
  end.

(** [s.trim()] *)
Definition trim (s : string) : string := trimEnd (trimStart s).

(** [s.startsWith(c)] and [s.endsWith(c)] for a one-character [c]. *)
Definition startsWith (c : ascii) (s : string) : bool :=
  match s with
  | String c' _ => Ascii.eqb c' c
  | EmptyString => false
  end.

Fixpoint endsWith (c : ascii) (s : string) : bool :=
  match s with
  | EmptyString => false
  | String c' EmptyString => Ascii.eqb c' c
  | String _ s' => endsWith c s'
  end.

Fixpoint dropLast (s : string) : string :=
  match s with
  | EmptyString => EmptyString
  | String _ EmptyString => EmptyString
  | String c s' => String c (dropLast s')
  end.

(** [s.slice(1, -1)] *)
Definition slice_1_m1 (s : string) : string :=
  match s with
  | String _ s' => dropLast s'
  | EmptyString => EmptyString
  end.

(** [s.includes(c)] for a one-character [c]. *)
Fixpoint includes (c : ascii) (s : string) : bool :=
  match s with
  | String c' s' => Ascii.eqb c' c || includes c s'
  | EmptyString => false
  end.

(** [s.substring(n)] *)
Fixpoint substring_from (n : nat) (s : string) : string :=
  match n, s with
  | O, _ => s
  | S n', String _ s' => substring_from n' s'
  | S _, EmptyString => EmptyString
  end.

(** [s.replace(/<([^>]+)>/g, '$1')], scanning left to right.  [pending]
    holds the characters read since a [<] that has not met its [>] yet:
    the match at that [<] succeeds at the first [>] if at least one
    character lies between, and is given up when the text ends or the
    [>] follows at once. *)
Fixpoint unwrap_angles (pending : option string) (s : string) : string :=
  match s with
  | EmptyString =>
      match pending with
      | Some p => String "<" p
      | None => EmptyString
      end
  | String c s' =>
      match pending with
      | None =>
          if Ascii.eqb c "<" then unwrap_angles (Some EmptyString) s'
          else String c (unwrap_angles None s')
      | Some p =>
          if Ascii.eqb c ">" then
            (if String.eqb p "" then String "<" (String ">" (unwrap_angles None s'))
             else p +:+ unwrap_angles None s')
          else unwrap_angles (Some (p +:+ String c EmptyString)) s'
      end
  end.

End JsString.

(** ** utils/queue.js: the Redis connection options and [getJobStatus] *)

Module RedisConfig.

Import JsString.

(** [sanitizeRedisUrl(raw)]; [None] is [null]. *)
Definition sanitizeRedisUrl (raw : option string) : option string :=
  match raw with
  | None => None
  | Some raw =>
      if String.eqb raw "" then None
      else
        let s := trim raw in
        let s := if startsWith "<" s && endsWith ">" s then slice_1_m1 s else s in
        Some (unwrap_angles None s)
  end.

(** [retryStrategy(times)]: [Math.min(30000, Math.pow(2, times) * 100)],
    for the reconnection counts ioredis passes (1, 2, ...). *)
Definition retryStrategy (times : Z) : Z := Z.min 30000 (2 ^ times * 100).

End RedisConfig.

Module QueueExports.

(** [getJobStatus(jobId)] *)
Definition getJobStatus (jobId : string) (q : Bull.Queue) : value :=
  match Bull.getJob jobId q with
  | None => VNull
  | Some job =>
      VObj [("id", VStr (Bull.id job));
            ("progress", VNum (inject_Z (Bull._progress job)));
            ("state", VStr (Bull.state_name (Bull.state job)));
            ("data", Bull.data job);
            ("processedOn", of_option_Z (Bull.processedOn job));
            ("finishedOn", of_option_Z (Bull.finishedOn job));
            ("failedReason", of_option_string (Bull.failedReason job))]
  end.

End QueueExports.

(** ** utils/validation.js: the formats a request may name *)

Module Validation.

(** [Joi.string().valid('jpeg', 'jpg', 'png', 'webp', 'avif')], the
    values accepted for [format] and for [compress.format]. *)
Definition format_values : list string := ["jpeg"; "jpg"; "png"; "webp"; "avif"].

End Validation.

(** ** A store that records what is written

    Reads answer from three given functions; each write succeeds and is
    appended to the world, which is the list of writes so far. *)

Module Recorder.

Section Recorder.

Variable User : Type.

Inductive Event : Type :=
| Put (key : string) (body : Buffer) (contentType : string)
| Save (doc : Store.ImageDoc)
| Usage (user : User) (delta : Z).

Variable find_image : value -> result (option Store.ImageDoc).
Variable get_object : string -> result Buffer.
Variable find_user : value -> result (option User).

Definition collaborators : Store.Collaborators (list Event) User := {|
  Store.s3_put := fun key body contentType w => (Ok tt, (w ++ [Put key body contentType])%list);
  Store.s3_get := fun key _ => get_object key;
  Store.Image_findById := fun imageId _ => find_image imageId;
  Store.Image_save := fun doc w => (Ok tt, (w ++ [Save doc])%list);
  Store.User_findById := fun userId _ => find_user userId;
  Store.updateStorageUsage := fun user delta w => (Ok tt, (w ++ [Usage user delta])%list)
|}.

End Recorder.

Arguments Put {User} key body contentType.
Arguments Save {User} doc.
Arguments Usage {User} user delta.

End Recorder.

(** ** middleware/auth.js *)

Module Auth.

Inductive Outcome (U : Type) : Type :=
| Next (user : U)
| Respond (status : Z) (message : string).
Arguments Next {U} user.
Arguments Respond {U} status message.

Section Auth.

Context {U : Type}.
(** [jwt.verify(token, process.env.JWT_SECRET)]: the decoded payload. *)
Variable jwt_verify : string -> result value.
(** [User.findById(id).select('-password')] and the document's
    [isActive] flag; the User model is not among the sources. *)
Variable User_findById : value -> result (option U).
Variable isActive : U -> bool.

(** [auth(req, res, next)] as a function of the Authorization header:
    [Next user] is [req.user = user; next()]. *)
Definition auth (authHeader : option string) : Outcome U :=
  match authHeader with
  | None => Respond 401 "Access denied. No token provided."
  | Some authHeader =>
      if String.eqb authHeader "" || negb (String.prefix "Bearer " authHeader)
      then Respond 401 "Access denied. No token provided."
      else
        let token := JsString.substring_from 7 authHeader in
        if String.eqb token ""
        then Respond 401 "Access denied. No token provided."
        else
          match (let? decoded := jwt_verify token in
                 User_findById (get "id" decoded)) with
          | Ok (Some user) =>
              if isActive user then Next user
              else Respond 401 "User not found or inactive."
          | Ok None => Respond 401 "User not found or inactive."
          | Throw _ => Respond 401 "Invalid token."
          end
  end.

End Auth.

End Auth.

(** ** middleware/upload.js: the errors of an upload *)

Module UploadErrors.

(** An error reaching [handleUploadError]: whether it is a
    [multer.MulterError], and its [code], [statusCode] and [message]. *)
Record Error := {
  isMulterError : bool;
  code : option string;
  statusCode : option Z;
  message : string
}.

(** [fileFilter(req, file, cb)]: the arguments [cb] is called with. *)
Definition fileFilter (ALLOWED_FILE_TYPES : option (list string)) (mimetype : string)
  : option Error * bool :=
  if Upload.fileFilter ALLOWED_FILE_TYPES mimetype
  then (None, true)
  else (Some {| isMulterError := false; code := None; statusCode := Some 400;
                message := "Invalid file type. Only images are allowed." |}, false).

Inductive Handled : Type :=
| Responded (status : Z) (message : string)
| Forwarded (error : Error).

Definition code_is (error : Error) (c : string) : bool :=
  match code error with
  | Some c' => String.eqb c' c
  | None => false
  end.

(** The double-quote character. *)
Definition quote : string := String (ascii_of_N 34) EmptyString.

(** [handleUploadError(error, req, res, next)]; [Forwarded] is
    [next(error)]. *)
Definition handleUploadError (error : Error) : Handled :=
  if isMulterError error && code_is error "LIMIT_FILE_SIZE"
  then Responded 400 "File too large. Maximum size allowed is 10MB."
  else if isMulterError error && code_is error "LIMIT_FILE_COUNT"
  then Responded 400 "Too many files. Only one file allowed per upload."
  else if isMulterError error && code_is error "LIMIT_UNEXPECTED_FILE"
  then Responded 400
         ("Unexpected field name. Use " +:+ quote +:+ "image" +:+ quote
          +:+ " as the field name.")
  else match statusCode error with
       | Some 400 => Responded 400 (message error)
       | _ => Forwarded error
       end.

End UploadErrors.

(** ** models/Image.js: the [sizeFormatted] virtual *)

Module ImageModel.

Definition sizes : list string := ["B"; "KB"; "MB"; "GB"].

(** The [while] loop, [rounds] being a bound on its iterations: each one
    raises [sizeIndex], which stops the loop at [sizes.length - 1].
    Dividing a byte count by 1024 is exact in double precision. *)
Fixpoint scale (rounds : nat) (size : Q) (sizeIndex : nat) : Q * nat :=
  match rounds with
  | O => (size, sizeIndex)
  | S rounds' =>
      if Qle_bool 1024 size && (sizeIndex <? length sizes - 1)%nat
      then scale rounds' (size / 1024) (S sizeIndex)
      else (size, sizeIndex)
  end.

(** [Math.round(size * 100)]: to the nearest integer, halves upwards
    (the double-precision product rounds as the exact one does for byte
    counts below 2^40). *)
Definition round_hundredths (size : Q) : Z := Qfloor (size * 100 + (1 # 2)).

(** The text of [m / 100] for [m >= 0], as a template literal prints
    it: no trailing zeros and no decimal point on a whole number. *)
Definition show_hundredths (m : Z) : string :=
  let whole := m / 100 in
  let frac := m mod 100 in
  if frac =? 0 then show_Z whole
  else if frac mod 10 =? 0 then show_Z whole +:+ "." +:+ show_Z (frac / 10)
  else show_Z whole +:+ "." +:+ (if frac <? 10 then "0" else "") +:+ show_Z frac.

(** The getter, for a document whose [size] is the byte count [size]. *)
Definition sizeFormatted (size : Z) : string :=
  let (scaled, sizeIndex) := scale (length sizes) (inject_Z size) 0 in
  show_hundredths (round_hundredths scaled) +:+ " " +:+ nth sizeIndex sizes "".

End ImageModel.

(** ** routes/images.js: pagination and tags *)

Module ImagesRoutes.

Record Pagination := {
  currentPage : Z;
  totalPages : Z;
  totalImages : Z;
  hasNextPage : bool;
  hasPrevPage : bool;
  nextPage : option Z;
  prevPage : option Z
}.

(** [.skip((page - 1) * limit)] *)
Definition skip (page limit : Z) : Z := (page - 1) * limit.

(** The [pagination] object of [GET /api/images]; [None] is [null]. *)
Definition pagination (page limit totalImages : Z) : Pagination :=
  let totalPages := Qceiling (inject_Z totalImages / inject_Z limit) in
  {| currentPage := page;
     totalPages := totalPages;
     totalImages := totalImages;
     hasNextPage := page <? totalPages;
     hasPrevPage := 1 <? page;
     nextPage := if page <? totalPages then Some (page + 1) else None;
     prevPage := if 1 <? page then Some (page - 1) else None |}.


End ImagesRoutes.

(** ** Names of the sharp calls, for statements about their order *)

Definition call_name (op : Sharp.Op) : string :=
  match op with
  | Sharp.resize _ _ _ _ | Sharp.resize_width _ => "resize"
  | Sharp.extract _ _ _ _ => "extract"
  | Sharp.rotate _ => "rotate"
  | Sharp.flip => "flip"
  | Sharp.flop => "flop"
  | Sharp.grayscale => "grayscale"
  | Sharp.tint _ _ _ => "tint"
  | Sharp.blur _ => "blur"
  | Sharp.sharpen => "sharpen"
  | Sharp.modulate option_name _ => "modulate " +:+ option_name
  | Sharp.linear _ => "linear"
  | Sharp.jpeg _ _ => "jpeg"
  | Sharp.png _ _ => "png"
  | Sharp.webp _ _ => "webp"
  | Sharp.avif _ => "avif"
  | Sharp.composite_tile_dest_in _ | Sharp.composite _ _ => "composite"
  end.

(** The order in which [applyFilters] tests its fields. *)
Definition filter_calls : list string :=
  ["grayscale"; "tint"; "blur"; "sharpen"; "modulate brightness"; "linear";
   "modulate saturation"].

Definition filter_fields : list string :=
  ["grayscale"; "sepia"; "blur"; "sharpen"; "brightness"; "contrast"; "saturation"].

(** ** Reads for the recording store: the stored image of the fixtures *)

Definition recorded_image (imageId : value) : result (option ImageDoc) :=
  Ok (if strict_eq_string imageId "img1"
      then Some (Fixture.image x89 "image/png" "png") else None).

Definition recorded_object (key : string) : result Buffer :=
  if String.eqb key "images/alice/1700000000000-cat" then Ok (Fixture.bytes x89)
  else Throw "The specified key does not exist.".

Definition recorded_user (userId : value) : result (option string) :=
  Ok (if strict_eq_string userId "alice" then Some "alice" else None).

(** * Properties *)

(** ** Lemmas on objects *)

Lemma field_In k v fs :
  List.NoDup (map fst fs) -> In (k, v) fs -> field k fs = v.
Proof.
  induction fs as [|[k' v'] fs IH]; simpl; [tauto|].
  intros Hnd [Heq|Hin].
  - inversion Heq; subst. now rewrite String.eqb_refl.
  - inversion Hnd as [|? ? Hnotin Hnd']; subst.
    destruct (String.eqb_spec k k') as [->|Hne].
    + exfalso. apply Hnotin. change k' with (fst (k', v)). now apply in_map.
    + now apply IH.
Qed.

Lemma field_absent k fs :
  ~ In k (map fst fs) -> field k fs = VUndefined.
Proof.
  induction fs as [|[k' v'] fs IH]; simpl; [reflexivity|].
  intros Hnot. destruct (String.eqb_spec k k') as [->|Hne].
  - exfalso. apply Hnot. now left.
  - apply IH. intros Hin. apply Hnot. now right.
Qed.

(** Reading a field does not depend on where the field was written. *)
Lemma field_Permutation k fs fs' :
  List.NoDup (map fst fs) -> Permutation fs fs' -> field k fs = field k fs'.
Proof.
  intros Hnd Hperm.
  assert (Hnd' : List.NoDup (map fst fs')).
  { eapply Permutation_NoDup; [|exact Hnd]. now apply Permutation_map. }
  destruct (in_dec String.string_dec k (map fst fs)) as [Hin|Hnot].
  - apply in_map_iff in Hin as [[k0 v] [Hk Hin]]. simpl in Hk. subst k0.
    rewrite (field_In k v fs Hnd Hin).
    symmetry. apply field_In; [exact Hnd'|].
    eapply Permutation_in; eassumption.
  - rewrite (field_absent k fs Hnot).
    symmetry. apply field_absent. intros Hin. apply Hnot.
    eapply Permutation_in; [|exact Hin].
    apply Permutation_sym. now apply Permutation_map.
Qed.

(** The processor reads a specification through [get] only. *)
Lemma transform_ext lib this b t t' :
  (forall k, get k t = get k t') ->
  ImageProcessor.transform lib this b t = ImageProcessor.transform lib this b t'.
Proof.
  intros Hget. unfold ImageProcessor.transform.
  now rewrite !Hget.
Qed.

Lemma transform_pipeline lib this b t :
  ImageProcessor.transform lib this b t = PipelineSpec.pipeline lib this b t.
Proof.
  unfold ImageProcessor.transform, PipelineSpec.pipeline, PipelineSpec.plan,
    PipelineSpec.precedence.
  f_equal.
  cbn [List.filter PipelineSpec.requested PipelineSpec.field_of].
  destruct (truthy (get "rotate" t));
  destruct (truthy (get "flip" t));
  destruct (truthy (get "mirror" t));
  destruct (truthy (get "crop" t));
  destruct (truthy (get "resize" t));
  destruct (truthy (get "filters" t));
  destruct (truthy (get "watermark" t) && truthy (get "image" (get "watermark" t)));
  destruct (truthy (get "compress" t));
  destruct (truthy (get "format" t));
  reflexivity.
Qed.

(** ** The order of the pipeline (C2) *)

Lemma plan_sublist t : sublist (PipelineSpec.plan t) PipelineSpec.precedence.
Proof.
  unfold PipelineSpec.plan. generalize PipelineSpec.precedence as l.
  induction l as [|s l IH]; simpl; [constructor|].
  destruct (PipelineSpec.requested t s); now constructor.
Qed.

Lemma requested_present t s :
  PipelineSpec.requested t s = true -> get (PipelineSpec.field_of s) t <> VUndefined.
Proof.
  intros Hreq Hundef. destruct s; simpl in Hreq, Hundef; rewrite Hundef in Hreq;
    discriminate.
Qed.

(** C2. For every Transform Specification the executor runs the stages in
    the fixed precedence rotate, flip, mirror, crop, resize, filters,
    watermark, compress, format conversion: [transform] is the run of the
    requested stages taken from that list in that order, a stage whose
    field is absent is not run, and a specification listing the same
    fields in another order gives the same outcome. *)
Theorem transform_fixed_precedence
    (lib : Backend) (this : ImageProcessor.Config) (b : Buffer)
    (fields fields' : list (string * value))
    (Hkeys : List.NoDup (map fst fields))
    (Horder : Permutation fields fields') :
  ImageProcessor.transform lib this b (VObj fields)
    = rethrow "Failed to transform image: "
        (PipelineSpec.run lib this (VObj fields) (PipelineSpec.plan (VObj fields)) b)
  /\ sublist (PipelineSpec.plan (VObj fields)) PipelineSpec.precedence
  /\ (forall s, In s (PipelineSpec.plan (VObj fields)) ->
        In (PipelineSpec.field_of s) (map fst fields))
  /\ ImageProcessor.transform lib this b (VObj fields')
       = ImageProcessor.transform lib this b (VObj fields).
Proof.
  split; [apply transform_pipeline|].
  split; [apply plan_sublist|].
  split.
  - intros s Hs. apply filter_In in Hs as [_ Hreq].
    apply requested_present in Hreq.
    destruct (in_dec String.string_dec (PipelineSpec.field_of s) (map fst fields))
      as [Hin|Hnot]; [exact Hin|].
    exfalso. apply Hreq. simpl. now apply field_absent.
  - apply transform_ext. intros k. simpl. symmetry. now apply field_Permutation.
Qed.

Lemma transform_fixed_precedence_witness :
  PipelineSpec.plan (VObj sample_spec)
    = [PipelineSpec.Rotate; PipelineSpec.Resize; PipelineSpec.FormatConversion]
  /\ ImageProcessor.transform (Memory.sharp 100) (ImageProcessor.new None None)
       sample_buffer (VObj (rev sample_spec))
     = ImageProcessor.transform (Memory.sharp 100) (ImageProcessor.new None None)
         sample_buffer (VObj sample_spec).
Proof.
  split; [reflexivity|].
  apply (transform_fixed_precedence (Memory.sharp 100) (ImageProcessor.new None None)
           sample_buffer sample_spec (rev sample_spec)).
  - repeat constructor; simpl; intuition discriminate.
  - apply Permutation_rev.
Defined.

(** ** Watermark without overlay (C5) *)

(** C5, as stated, fails: a watermark request without overlay bytes does
    not make the pipeline fail; the buffer comes back untouched. *)
Lemma watermark_without_overlay_succeeds :
  watermark_without_overlay watermark_text_only
  /\ ImageProcessor.transform (Memory.sharp 100) (ImageProcessor.new None None)
       sample_buffer watermark_text_only
     = Ok sample_buffer.
Proof. split; [split|]; reflexivity. Qed.

(** C5, amended. For every Transform Specification that requests a
    watermark but supplies no overlay image bytes, the pipeline skips the
    watermark stage: the outcome is that of the same specification with
    the watermark field left out. *)
Theorem watermark_without_overlay_skipped
    (lib : Backend) (this : ImageProcessor.Config) (b : Buffer) (t t' : value)
    (Hrequest : watermark_without_overlay t)
    (Hremoved : get "watermark" t' = VUndefined)
    (Hothers : forall k, k <> "watermark" -> get k t' = get k t) :
  ImageProcessor.transform lib this b t = ImageProcessor.transform lib this b t'
  /\ ~ In PipelineSpec.Watermark (PipelineSpec.plan t).
Proof.
  destruct Hrequest as [Hwm Himg]. split.
  - unfold ImageProcessor.transform.
    rewrite Hremoved, Hwm, Himg.
    rewrite !Hothers by discriminate. reflexivity.
  - intros Hin. apply filter_In in Hin as [_ Hreq]. simpl in Hreq.
    rewrite Hwm, Himg in Hreq. discriminate.
Qed.

Lemma watermark_without_overlay_skipped_witness :
  ImageProcessor.transform (Memory.sharp 100) (ImageProcessor.new None None) sample_buffer
    (VObj [("watermark", VObj [("text", VStr "logo")]); ("flip", VBool true)])
  = ImageProcessor.transform (Memory.sharp 100) (ImageProcessor.new None None) sample_buffer
      (VObj [("flip", VBool true)])
  /\ ~ In PipelineSpec.Watermark
       (PipelineSpec.plan
          (VObj [("watermark", VObj [("text", VStr "logo")]); ("flip", VBool true)])).
Proof.
  apply (watermark_without_overlay_skipped (Memory.sharp 100) (ImageProcessor.new None None)
           sample_buffer
           (VObj [("watermark", VObj [("text", VStr "logo")]); ("flip", VBool true)])
           (VObj [("flip", VBool true)])).
  - split; reflexivity.
  - reflexivity.
  - intros k Hk. simpl. destruct (String.eqb_spec k "watermark"); [contradiction|reflexivity].
Defined.

(** ** The dimension ceiling of resize (C6) *)

(** C6. With the default ceiling of 4000, a resize request whose width or
    height is an integer above 4000 (4001 is the first) fails with the
    maximum-dimension error, and a request with width 4000 (height absent
    or within the ceiling) passes the check: it resolves to what sharp
    renders for it. *)
Theorem resize_dimension_ceiling
    (lib : Backend) (b rendered : Buffer) (over within : value) (w : Z)
    (Hw : 4000 < w)
    (Hover : get "width" over = VNum (inject_Z w)
             \/ get "height" over = VNum (inject_Z w))
    (Hwidth : get "width" within = VNum 4000)
    (Hheight : js_gt (get "height" within) 4000 = false)
    (Hsharp : toBuffer lib
                (call (sharp (VBuf b))
                   (Sharp.resize (VNum 4000) (get "height" within)
                      (get_default "fit" (VStr "inside") within)
                      (get_default "withoutEnlargement" (VBool true) within)))
              = Ok rendered) :
  ImageProcessor.resize lib imageProcessor b over
    = Throw "Failed to resize image: Maximum dimension allowed is 4000px"
  /\ ImageProcessor.resize lib imageProcessor b within = Ok rendered.
Proof.
  assert (Hgt : js_gt (VNum (inject_Z w)) 4000 = true).
  { unfold js_gt. simpl. apply negb_true_iff. apply not_true_is_false.
    intros Hle. apply Qle_bool_iff in Hle. rewrite <- Zle_Qle in Hle. lia. }
  split.
  - unfold ImageProcessor.resize.
    replace (js_gt (get "width" over) (ImageProcessor.maxDimension imageProcessor)
             || js_gt (get "height" over) (ImageProcessor.maxDimension imageProcessor))
      with true; [reflexivity|].
    change (ImageProcessor.maxDimension imageProcessor) with 4000.
    destruct Hover as [-> | ->]; rewrite Hgt; [reflexivity|].
    now rewrite orb_true_r.
  - unfold ImageProcessor.resize.
    change (ImageProcessor.maxDimension imageProcessor) with 4000.
    rewrite Hwidth, Hheight.
    replace (js_gt (VNum 4000) 4000) with false by reflexivity.
    replace (truthy (VNum 4000)) with true by reflexivity.
    cbn [orb]. rewrite Hsharp. reflexivity.
Qed.

Lemma resize_dimension_ceiling_witness :
  ImageProcessor.resize (Memory.sharp 100) imageProcessor sample_buffer
    (VObj [("width", VNum 4001); ("height", VNum 3000)])
    = Throw "Failed to resize image: Maximum dimension allowed is 4000px"
  /\ ImageProcessor.resize (Memory.sharp 100) imageProcessor sample_buffer
       (VObj [("width", VNum 4000); ("height", VNum 3000)])
     = Ok sample_buffer.
Proof.
  apply (resize_dimension_ceiling (Memory.sharp 100) sample_buffer sample_buffer
           (VObj [("width", VNum 4001); ("height", VNum 3000)])
           (VObj [("width", VNum 4000); ("height", VNum 3000)]) 4001).
  - reflexivity.
  - left. reflexivity.
  - reflexivity.
  - reflexivity.
  - reflexivity.
Defined.

(** ** Saturation zero (C10) *)

(** C10. For every filter set whose saturation is 0, applying the filters
    gives the result of applying the same filter set with saturation
    absent: the saturation branch tests truthiness and 0 is falsy. *)
Theorem saturation_zero_not_applied
    (lib : Backend) (b : Buffer) (filters filters' : value)
    (Hzero : get "saturation" filters = VNum 0)
    (Habsent : get "saturation" filters' = VUndefined)
    (Hothers : forall k, k <> "saturation" -> get k filters' = get k filters) :
  ImageProcessor.applyFilters lib b filters = ImageProcessor.applyFilters lib b filters'.
Proof.
  unfold ImageProcessor.applyFilters.
  rewrite Hzero, Habsent.
  rewrite !Hothers by discriminate.
  reflexivity.
Qed.

Lemma saturation_zero_not_applied_witness :
  ImageProcessor.applyFilters (Memory.sharp 100) sample_buffer
    (VObj [("brightness", VNum (12 # 10)); ("saturation", VNum 0)])
  = ImageProcessor.applyFilters (Memory.sharp 100) sample_buffer
      (VObj [("brightness", VNum (12 # 10))]).
Proof.
  apply (saturation_zero_not_applied (Memory.sharp 100) sample_buffer
           (VObj [("brightness", VNum (12 # 10)); ("saturation", VNum 0)])
           (VObj [("brightness", VNum (12 # 10))])).
  - reflexivity.
  - reflexivity.
  - intros k Hk. simpl.
    destruct (String.eqb_spec k "brightness"); [reflexivity|].
    destruct (String.eqb_spec k "saturation"); [contradiction|reflexivity].
Defined.

(** ** Running the processors *)

Ltac run_step :=
  match goal with
  | H : (_, _) = (_, _) |- _ => inversion H; subst; clear H
  | H : context [match ?x with _ => _ end] |- _ => destruct x eqn:?
  | H : context [if ?c then _ else _] |- _ => destruct c eqn:?
  end.

Ltac run_monad :=
  cbv beta delta [mbind mret M_bind M_ret throw progress read write lift] in *;
  cbn [world reported] in *.

Lemma checkpoints_prefix k :
  StronglySorted Z.le (firstn k checkpoints)
  /\ Forall (fun n => 0 <= n <= 100) (firstn k checkpoints).
Proof.
  do 9 (destruct k as [|k];
        [split; repeat constructor; lia|]).
  split; repeat constructor; lia.
Qed.

Section Runs.

Context {W User : Type} `{!Collaborators W User}.
Variable lib : Backend.
Variable processor_config : ImageProcessor.Config.
Variable s3Service : S3Service.Config.

(** Whatever the collaborators do, the transform processor reports a
    prefix of its checkpoints, and all of them when it resolves. *)
Lemma process_transform_trace now newId job_data (w : W) r s :
  process_transform lib processor_config s3Service now newId job_data
    {| world := w; reported := [] |} = (r, s) ->
  exists k, reported s = firstn k checkpoints /\ (is_ok r = true -> k = 8%nat).
Proof.
  unfold process_transform. run_monad. intros Hrun.
  repeat (run_step; run_monad; cbn [app] in * );
    try (eexists 8%nat; split; [reflexivity|reflexivity]);
    try (eexists 1%nat; split; [reflexivity|discriminate]);
    try (eexists 2%nat; split; [reflexivity|discriminate]);
    try (eexists 3%nat; split; [reflexivity|discriminate]);
    try (eexists 4%nat; split; [reflexivity|discriminate]);
    try (eexists 5%nat; split; [reflexivity|discriminate]);
    try (eexists 6%nat; split; [reflexivity|discriminate]);
    try (eexists 7%nat; split; [reflexivity|discriminate]).
Qed.

End Runs.

(** ** Progress within one attempt (C7) *)

(** C7. Within one execution attempt of a transform job the reported
    progress values are non-decreasing and lie in 0..100, and the last one
    is 100 when the attempt succeeds. *)
Theorem transform_progress_monotone
    {W User : Type} `{!Collaborators W User}
    (lib : Backend) (config : ImageProcessor.Config) (s3Service : S3Service.Config)
    (now : Z) (newId : string) (job : Bull.Job) (w : W)
    (r : result value) (s : State W)
    (Hkind : Bull.name job = "transform")
    (Hrun : attempt lib config s3Service now newId job w = (r, s)) :
  StronglySorted Z.le (reported s)
  /\ Forall (fun n => 0 <= n <= 100) (reported s)
  /\ (is_ok r = true -> List.last (reported s) 0 = 100).
Proof.
  unfold attempt, processor in Hrun. rewrite Hkind in Hrun. simpl in Hrun.
  apply process_transform_trace in Hrun as [k [Hk Hok]].
  rewrite Hk. destruct (checkpoints_prefix k) as [Hsorted Hrange].
  repeat split; try assumption.
  intros Hr. rewrite (Hok Hr). reflexivity.
Qed.

Lemma transform_progress_monotone_witness :
  let run := attempt (Memory.sharp 60) imageProcessor Fixture.s3Service
               1700000001000 "img2" transform_job Fixture.png_world in
  is_ok (fst run) = true
  /\ reported (snd run) = checkpoints
  /\ StronglySorted Z.le (reported (snd run))
  /\ Forall (fun n => 0 <= n <= 100) (reported (snd run))
  /\ (is_ok (fst run) = true -> List.last (reported (snd run)) 0 = 100).
Proof.
  intros run.
  split; [vm_compute; reflexivity|].
  split; [vm_compute; reflexivity|].
  apply (transform_progress_monotone (Memory.sharp 60) imageProcessor Fixture.s3Service
           1700000001000 "img2" transform_job Fixture.png_world (fst run) (snd run)).
  - reflexivity.
  - vm_compute. reflexivity.
Defined.

(** ** Optimize jobs (C3, C9) *)

(** The threshold in integers: under 80% means [5 * n < 4 * size]. *)
Lemma reduced_enough_spec (n imageSize : Z) :
  reduced_enough n imageSize = (5 * n <? 4 * imageSize).
Proof.
  unfold reduced_enough.
  destruct (5 * n <? 4 * imageSize) eqn:Hlt.
  - apply negb_true_iff, not_true_is_false. intros Hle.
    apply Qle_bool_iff in Hle. apply Z.ltb_lt in Hlt.
    unfold Qle in Hle. simpl in Hle. lia.
  - apply negb_false_iff. apply Qle_bool_iff. apply Z.ltb_ge in Hlt.
    unfold Qle. simpl. lia.
Qed.

Section OptimizeRuns.

Context {W User : Type} `{!Collaborators W User}.
Variable lib : Backend.
Variable config : ImageProcessor.Config.
Variable s3Service : S3Service.Config.

(** The resolved value of the optimize processor is a constant. *)
Lemma process_optimize_payload job_data (s s' : State W) (ret : value) :
  process_optimize lib config s3Service job_data s = (Ok ret, s') ->
  ret = optimize_payload.
Proof.
  unfold process_optimize. run_monad. intros Hrun.
  repeat (run_step; run_monad); try discriminate; reflexivity.
Qed.

(** When the re-encoded bytes are not under 80% of the recorded size, the
    processor resolves and leaves the world as it found it. *)
Lemma process_optimize_noop job_data (w : W) image original optimized :
  Image_findById (get "imageId" job_data) w = Ok (Some image) ->
  s3_get (s3Key image) w = Ok original ->
  ImageProcessor.compress lib config original
    (VObj [("quality", VNum 85); ("format", of_option_string (format image))])
    = Ok optimized ->
  reduced_enough (Z.of_nat (length optimized)) (size image) = false ->
  process_optimize lib config s3Service job_data {| world := w; reported := [] |}
    = (Ok optimize_payload, {| world := w; reported := [10; 30; 50; 70; 100] |}).
Proof.
  intros Hfound Hbytes Hcompress Hsmall.
  unfold process_optimize, S3Service.downloadFile. run_monad.
  rewrite Hfound. cbn beta iota zeta. cbn [world reported app].
  rewrite Hbytes. cbn [rethrow]. cbn beta iota zeta. cbn [world reported app].
  rewrite Hcompress. cbn beta iota zeta. cbn [world reported app].
  rewrite Hsmall. reflexivity.
Qed.

End OptimizeRuns.

(** C3 at a 5% reduction: the attempt resolves and the world is unchanged,
    yet the payload says [optimized: true], the very payload of an attempt
    that did replace the stored bytes (a 50% reduction). *)
Theorem optimize_noop_reports_optimized :
  let noop := attempt (Memory.sharp 95) imageProcessor Fixture.s3Service
                1700000001000 "img2" optimize_job Fixture.png_world in
  let applied := attempt (Memory.sharp 50) imageProcessor Fixture.s3Service
                   1700000001000 "img2" optimize_job Fixture.png_world in
  fst noop = Ok (VObj [("success", VBool true); ("optimized", VBool true)])
  /\ world (snd noop) = Fixture.png_world
  /\ fst applied = fst noop
  /\ size <$> Memory.images (world (snd applied)) !! "img1" = Some 50
  /\ size <$> Memory.images (world (snd noop)) !! "img1" = Some 100.
Proof.
  cbv zeta. repeat split; vm_compute; reflexivity.
Qed.

(** C9. For every image whose stored format is gif (a type the upload
    filter accepts), compress without a format override fails with the
    unsupported-format error, and so does the optimize job on that image
    (found and downloaded), which stops after its third progress report
    and changes nothing. *)
Theorem gif_compress_unsupported
    {W User : Type} `{!Collaborators W User}
    (lib : Backend) (config : ImageProcessor.Config) (s3Service : S3Service.Config)
    (w : W) (job_data options : value) (image : ImageDoc) (b : Buffer) (m : Metadata)
    (Hdecode : metadata lib (VBuf b) = Ok m)
    (Hgif : Sharp.format m = "gif")
    (Hdefault : get "format" options = VUndefined)
    (Hfound : Image_findById (get "imageId" job_data) w = Ok (Some image))
    (Hstored : format image = Some "gif")
    (Hbytes : s3_get (s3Key image) w = Ok b) :
  Upload.fileFilter None "image/gif" = true
  /\ ImageProcessor.compress lib config b options = Throw unsupported_gif
  /\ process_optimize lib config s3Service job_data {| world := w; reported := [] |}
     = (Throw unsupported_gif, {| world := w; reported := [10; 30; 50] |}).
Proof.
  split; [reflexivity|].
  split.
  - unfold ImageProcessor.compress. rewrite Hdecode. cbn [bind].
    rewrite Hdefault, Hgif. reflexivity.
  - unfold process_optimize, S3Service.downloadFile. run_monad.
    rewrite Hfound. cbn beta iota zeta. cbn [world reported app].
    rewrite Hbytes. cbn [rethrow]. cbn beta iota zeta. cbn [world reported app].
    unfold ImageProcessor.compress. rewrite Hdecode, Hstored. reflexivity.
Qed.

Lemma gif_compress_unsupported_witness :
  Upload.fileFilter None "image/gif" = true
  /\ ImageProcessor.compress (Memory.sharp 95) imageProcessor (Fixture.bytes x47)
    (VObj [("quality", VNum 80)])
    = Throw unsupported_gif
  /\ process_optimize (Memory.sharp 95) imageProcessor Fixture.s3Service
       Fixture.optimize_data {| world := Fixture.gif_world; reported := [] |}
     = (Throw unsupported_gif, {| world := Fixture.gif_world; reported := [10; 30; 50] |}).
Proof.
  apply (gif_compress_unsupported (Memory.sharp 95) imageProcessor Fixture.s3Service
           Fixture.gif_world Fixture.optimize_data (VObj [("quality", VNum 80)])
           (Fixture.image x47 "image/gif" "gif") (Fixture.bytes x47)
           {| Sharp.width := 100; Sharp.height := 100; Sharp.format := "gif";
              Sharp.space := "srgb"; Sharp.hasAlpha := false |}).
  - reflexivity.
  - reflexivity.
  - reflexivity.
  - vm_compute. reflexivity.
  - reflexivity.
  - vm_compute. reflexivity.
Defined.

(** ** Reading jobs (C1, C8) *)

(** The status handler never looks at the requester. *)
Lemma get_job_ignores_requester (userA userB id : string) (q : Bull.Queue) :
  get_job userA id q = get_job userB id q.
Proof. reflexivity. Qed.

(** C1 at a job of another user: bob asks for alice's job and receives
    status 200 with the job, payload included, exactly as alice does;
    the listing, asked by bob, leaves that job out. *)
Theorem get_job_serves_other_users :
  get_job "bob" "1" alice_queue = get_job "alice" "1" alice_queue
  /\ status (get_job "bob" "1" alice_queue) = 200
  /\ get "userId" (get "data" (get "job" (get "data" (body (get_job "bob" "1" alice_queue)))))
     = VStr "alice"
  /\ status (get_job "bob" "7" alice_queue) = 404
  /\ userJobs "bob" alice_queue = []
  /\ userJobs "alice" alice_queue = alice_queue.
Proof. repeat split; reflexivity. Qed.

Lemma optimize_payload_not_owned (imageId : value) (user_id : string) (j : Bull.Job) :
  Bull.data j = VObj [("imageId", imageId)] -> owned_by user_id j = false.
Proof. intros Hdata. unfold owned_by. rewrite Hdata. reflexivity. Qed.

Lemma job_json_data (j j' : Bull.Job) :
  job_json j = job_json j' -> Bull.data j = Bull.data j'.
Proof. unfold job_json. intros Heq. now inversion Heq. Qed.

(** C8. For every optimize job and every requesting user, the listing
    never includes the job: its payload, as [addOptimizeJob] builds it,
    has an imageId and no userId, so the ownership filter drops it. *)
Theorem optimize_jobs_never_listed
    (imageId : value) (now : Z) (jobId : string) (q : Bull.Queue)
    (user_id : string) (page : value) (jobs : list Bull.Job) (j : Bull.Job)
    (Hpayload : Bull.data j = Bull.data (fst (addOptimizeJob imageId now jobId q))) :
  owned_by user_id j = false
  /\ ~ In j (userJobs user_id jobs)
  /\ ~ In (job_json j) (listed (list_jobs user_id page jobs))
  /\ get "userId" (Bull.data j) = VUndefined.
Proof.
  simpl in Hpayload.
  assert (Hnot : forall j', Bull.data j' = Bull.data j -> owned_by user_id j' = false).
  { intros j' Hj'. apply (optimize_payload_not_owned imageId). congruence. }
  split; [now apply Hnot|].
  split.
  - intros Hin. apply filter_In in Hin as [_ Howned].
    rewrite (Hnot j eq_refl) in Howned. discriminate.
  - split.
    + unfold listed, list_jobs. simpl. intros Hin.
      apply in_map_iff in Hin as [j' [Hjson Hin]].
      apply filter_In in Hin as [_ Howned].
      rewrite (Hnot j' (job_json_data _ _ Hjson)) in Howned. discriminate.
    + rewrite Hpayload. reflexivity.
Qed.

Lemma optimize_jobs_never_listed_witness :
  In optimize_job mixed_queue
  /\ map Bull.id (userJobs "alice" mixed_queue) = ["1"]
  /\ owned_by "alice" optimize_job = false
  /\ ~ In optimize_job (userJobs "alice" mixed_queue)
  /\ ~ In (job_json optimize_job) (listed (list_jobs "alice" (VNum 1) mixed_queue))
  /\ get "userId" (Bull.data optimize_job) = VUndefined.
Proof.
  split; [right; left; reflexivity|].
  split; [reflexivity|].
  apply (optimize_jobs_never_listed (VStr "img1") 1700000000600 "2" alice_queue
           "alice" (VNum 1) mixed_queue optimize_job).
  reflexivity.
Defined.

(** ** Retention and clean-up (C4) *)

Lemma JobState_eqb_eq (a b : Bull.JobState) : Bull.JobState_eqb a b = true <-> a = b.
Proof. destruct a, b; simpl; split; congruence. Qed.

Lemma clean_In (grace now : Z) (status : Bull.JobState) (q : Bull.Queue) (j : Bull.Job) :
  In j (Bull.clean grace status now q)
  <-> In j q /\ ~ (Bull.state j = status /\ Bull.age_reference j < now - grace).
Proof.
  unfold Bull.clean. rewrite filter_In, negb_true_iff, andb_false_iff.
  rewrite <- !not_true_iff_false, JobState_eqb_eq, Z.ltb_lt.
  split; intros [Hin Hkeep]; (split; [exact Hin|]).
  - intros [Hs Ht]. destruct Hkeep; contradiction.
  - destruct (Bull.JobState_eqb (Bull.state j) status) eqn:Heq.
    + apply JobState_eqb_eq in Heq. right. intros Ht. apply Hkeep. now split.
    + left. intros Hs. apply JobState_eqb_eq in Hs. congruence.
Qed.

(** C4, as stated, fails on both counts.  A job whose attempts are
    exhausted sits in the failed set, and the clean-up made when the
    module is loaded a day later removes it without any operator action;
    a transform job that completes is gone from the queue at once. *)
Lemma failed_job_pruned_completed_job_not_retained :
  map (fun j => (Bull.id j, Bull.state j, Bull.finishedOn j)) exhausted_queue
    = [("1", Bull.failed, Some 1700000003000)]
  /\ clean_on_load (1700000003000 + retention + 1) exhausted_queue = []
  /\ fst (work (Memory.sharp 60) imageProcessor Fixture.s3Service
            1700000000600 1700000001600 "img2" "1" alice_queue Fixture.png_world)
     = [].
Proof. repeat split; vm_compute; reflexivity. Qed.

(** C4, amended. Jobs are queued with removeOnComplete set and
    removeOnFail unset: a job that completes is removed from the queue at
    once, a job that fails is kept, in the failed set once its attempts are
    exhausted; the clean-up made when the queue module is loaded removes
    the completed and the failed jobs that finished more than 24 hours
    before and keeps every other job. *)
Theorem retention_as_configured
    (j : Bull.Job) (ret : value) (reason : string) (now : Z) (q : Bull.Queue)
    (Hopts : Bull.opts j = transformOptions \/ Bull.opts j = optimizeOptions) :
  Bull.moveToCompleted ret now j = None
  /\ (exists j', Bull.moveToFailed reason now j = Some j'
                 /\ (Bull.attempts (Bull.opts j) <= Bull.attemptsMade j + 1 ->
                     Bull.state j' = Bull.failed /\ Bull.finishedOn j' = Some now))
  /\ (forall x, In x (clean_on_load now q)
                <-> In x q
                    /\ ~ ((Bull.state x = Bull.completed \/ Bull.state x = Bull.failed)
                          /\ Bull.age_reference x < now - 24 * 60 * 60 * 1000)).
Proof.
  assert (Hflags : Bull.removeOnComplete (Bull.opts j) = true
                   /\ Bull.removeOnFail (Bull.opts j) = false).
  { destruct Hopts as [-> | ->]; split; reflexivity. }
  destruct Hflags as [Hcomplete Hfail].
  split; [unfold Bull.moveToCompleted; now rewrite Hcomplete|].
  split.
  - unfold Bull.moveToFailed. rewrite Hfail.
    destruct (Bull.attemptsMade j + 1 <? Bull.attempts (Bull.opts j)) eqn:Hleft.
    + eexists. split; [reflexivity|]. apply Z.ltb_lt in Hleft. lia.
    + eexists. split; [reflexivity|]. intros _. split; reflexivity.
  - intros x. unfold clean_on_load. rewrite !clean_In.
    change retention with (24 * 60 * 60 * 1000). tauto.
Qed.

Lemma retention_as_configured_witness :
  Bull.moveToCompleted optimize_payload 1700000001600 transform_job = None
  /\ (exists j', Bull.moveToFailed "Image not found" 1700000001600 transform_job = Some j'
                 /\ (Bull.attempts (Bull.opts transform_job)
                       <= Bull.attemptsMade transform_job + 1 ->
                     Bull.state j' = Bull.failed
                     /\ Bull.finishedOn j' = Some 1700000001600))
  /\ (forall x, In x (clean_on_load 1700000001600 exhausted_queue)
                <-> In x exhausted_queue
                    /\ ~ ((Bull.state x = Bull.completed \/ Bull.state x = Bull.failed)
                          /\ Bull.age_reference x < 1700000001600 - 24 * 60 * 60 * 1000)).
Proof.
  apply (retention_as_configured transform_job optimize_payload "Image not found"
           1700000001600 exhausted_queue).
  left. reflexivity.
Defined.

(** * Further properties of the image processor *)

Lemma falsy_not_above (v : value) (n : Z) :
  0 <= n -> truthy v = false -> js_gt v n = false.
Proof.
  intros Hn Hfalsy. unfold js_gt.
  assert (Hzero : (0 <= inject_Z n)%Q) by (unfold Qle; simpl; lia).
  destruct v as [| |[|]|q|s|bf|ms|items|fs]; simpl in *; try reflexivity;
    try discriminate.
  - now apply negb_false_iff, Qle_bool_iff.
  - now apply negb_false_iff, Qle_bool_iff.
  - apply negb_false_iff in Hfalsy. apply Qeq_bool_iff in Hfalsy.
    apply negb_false_iff, Qle_bool_iff. now rewrite Hfalsy.
Qed.

(** X1. crop rejects a request whose width or height is missing (or 0)
    with its own message, before sharp is asked anything. *)
Theorem crop_requires_dimensions
    (lib : Backend) (b : Buffer) (options : value)
    (Hmissing : truthy (get "width" options) = false
                \/ truthy (get "height" options) = false) :
  ImageProcessor.crop lib b options
    = Throw "Failed to crop image: Width and height are required for cropping".
Proof.
  unfold ImageProcessor.crop.
  destruct Hmissing as [-> | ->]; [reflexivity|].
  rewrite orb_true_r. reflexivity.
Qed.

Lemma crop_requires_dimensions_witness :
  ImageProcessor.crop (Memory.sharp 100) sample_buffer
    (VObj [("width", VNum 200); ("x", VNum 10)])
    = Throw "Failed to crop image: Width and height are required for cropping".
Proof.
  apply (crop_requires_dimensions (Memory.sharp 100) sample_buffer
           (VObj [("width", VNum 200); ("x", VNum 10)])).
  right. reflexivity.
Defined.

(** X2. resize given neither a width nor a height makes no resize call:
    the buffer only passes through sharp's decoder and encoder. *)
Theorem resize_without_dimensions
    (lib : Backend) (this : ImageProcessor.Config) (b : Buffer) (options : value)
    (Hmax : 0 <= ImageProcessor.maxDimension this)
    (Hwidth : truthy (get "width" options) = false)
    (Hheight : truthy (get "height" options) = false) :
  ImageProcessor.resize lib this b options
    = rethrow "Failed to resize image: " (toBuffer lib (sharp (VBuf b))).
Proof.
  unfold ImageProcessor.resize.
  rewrite (falsy_not_above _ _ Hmax Hwidth), (falsy_not_above _ _ Hmax Hheight).
  rewrite Hwidth, Hheight. reflexivity.
Qed.

Lemma resize_without_dimensions_witness :
  ImageProcessor.resize (Memory.sharp 100) imageProcessor sample_buffer
    (VObj [("fit", VStr "cover")])
    = rethrow "Failed to resize image: "
        (toBuffer (Memory.sharp 100) (sharp (VBuf sample_buffer))).
Proof.
  apply (resize_without_dimensions (Memory.sharp 100) imageProcessor sample_buffer
           (VObj [("fit", VStr "cover")])).
  - vm_compute. discriminate.
  - reflexivity.
  - reflexivity.
Defined.

(** X3. changeFormat reads the format without regard to case and takes
    jpg for jpeg: any spelling of either gives what "jpeg" gives. *)
Theorem changeFormat_jpeg_spellings
    (lib : Backend) (this : ImageProcessor.Config) (b : Buffer) (fmt : string)
    (options : value)
    (Hjpeg : toLowerCase fmt = "jpeg" \/ toLowerCase fmt = "jpg") :
  ImageProcessor.changeFormat lib this b (VStr fmt) options
    = ImageProcessor.changeFormat lib this b (VStr "jpeg") options.
Proof.
  unfold ImageProcessor.changeFormat.
  destruct Hjpeg as [-> | ->]; reflexivity.
Qed.

Lemma changeFormat_jpeg_spellings_witness :
  ImageProcessor.changeFormat (Memory.sharp 100) imageProcessor sample_buffer
    (VStr "JPG") (VObj [("quality", VNum 70)])
  = ImageProcessor.changeFormat (Memory.sharp 100) imageProcessor sample_buffer
      (VStr "jpeg") (VObj [("quality", VNum 70)]).
Proof.
  apply (changeFormat_jpeg_spellings (Memory.sharp 100) imageProcessor sample_buffer
           "JPG" (VObj [("quality", VNum 70)])).
  right. reflexivity.
Defined.

(** X4. A format whose lower-case spelling is none of jpeg, jpg, png,
    webp, avif makes changeFormat fail with the unsupported-format
    message, which quotes the format as it was given. *)
Theorem changeFormat_unsupported
    (lib : Backend) (this : ImageProcessor.Config) (b : Buffer) (fmt : string)
    (options : value)
    (Hother : ~ In (toLowerCase fmt) Validation.format_values) :
  ImageProcessor.changeFormat lib this b (VStr fmt) options
    = Throw ("Failed to convert image format: Unsupported format: " +:+ fmt).
Proof.
  unfold ImageProcessor.changeFormat.
  assert (Hne : forall f, In f Validation.format_values ->
                          String.eqb (toLowerCase fmt) f = false).
  { intros f Hf. apply String.eqb_neq. intros Heq. apply Hother. now rewrite Heq. }
  rewrite (Hne "jpeg"), (Hne "jpg"), (Hne "png"), (Hne "webp"), (Hne "avif");
    simpl; tauto.
Qed.

Lemma changeFormat_unsupported_witness :
  ImageProcessor.changeFormat (Memory.sharp 100) imageProcessor sample_buffer
    (VStr "TIFF") (VObj [])
  = Throw "Failed to convert image format: Unsupported format: TIFF".
Proof.
  apply (changeFormat_unsupported (Memory.sharp 100) imageProcessor sample_buffer
           "TIFF" (VObj [])).
  vm_compute. intuition discriminate.
Defined.

(** X5. The three format tables agree: every format the validation schema
    admits is one changeFormat encodes (its only failures are sharp's) and
    one the worker's MIME table lists. *)
Theorem validated_formats_supported
    (lib : Backend) (this : ImageProcessor.Config) (b : Buffer) (fmt : string)
    (options : value)
    (Hvalid : In fmt Validation.format_values) :
  (exists op, Memory.is_encoder op = true
              /\ ImageProcessor.changeFormat lib this b (VStr fmt) options
                 = rethrow "Failed to convert image format: "
                     (toBuffer lib (call (sharp (VBuf b)) op)))
  /\ exists mime, lookup_string (toLowerCase fmt) formatMimeTypes = Some mime.
Proof.
  simpl in Hvalid.
  destruct Hvalid as [<-|[<-|[<-|[<-|[<-|[]]]]]];
    (split; [eexists; split; [|reflexivity]; reflexivity | eexists; reflexivity]).
Qed.

Lemma validated_formats_supported_witness :
  (exists op, Memory.is_encoder op = true
              /\ ImageProcessor.changeFormat (Memory.sharp 100) imageProcessor
                   sample_buffer (VStr "avif") (VObj [])
                 = rethrow "Failed to convert image format: "
                     (toBuffer (Memory.sharp 100) (call (sharp (VBuf sample_buffer)) op)))
  /\ exists mime, lookup_string (toLowerCase "avif") formatMimeTypes = Some mime.
Proof.
  apply (validated_formats_supported (Memory.sharp 100) imageProcessor sample_buffer
           "avif" (VObj [])).
  simpl. tauto.
Defined.

(** X6. A quality or a PNG compression level of 0 is never applied:
    changeFormat replaces it by the default, as if the option were
    absent. *)
Theorem changeFormat_zero_options
    (lib : Backend) (this : ImageProcessor.Config) (b : Buffer) (format : value)
    (options options' : value)
    (Hquality : get "quality" options = VNum 0)
    (Hlevel : get "compressionLevel" options = VNum 0)
    (Hquality' : get "quality" options' = VUndefined)
    (Hlevel' : get "compressionLevel" options' = VUndefined)
    (Hothers : forall k, k <> "quality" -> k <> "compressionLevel" ->
                         get k options' = get k options) :
  ImageProcessor.changeFormat lib this b format options
    = ImageProcessor.changeFormat lib this b format options'.
Proof.
  unfold ImageProcessor.changeFormat.
  rewrite Hquality, Hlevel, Hquality', Hlevel'.
  rewrite !Hothers by discriminate. reflexivity.
Qed.

Lemma changeFormat_zero_options_witness :
  ImageProcessor.changeFormat (Memory.sharp 100) imageProcessor sample_buffer (VStr "png")
    (VObj [("quality", VNum 0); ("compressionLevel", VNum 0); ("progressive", VBool true)])
  = ImageProcessor.changeFormat (Memory.sharp 100) imageProcessor sample_buffer (VStr "png")
      (VObj [("progressive", VBool true)]).
Proof.
  apply (changeFormat_zero_options (Memory.sharp 100) imageProcessor sample_buffer
           (VStr "png")
           (VObj [("quality", VNum 0); ("compressionLevel", VNum 0);
                  ("progressive", VBool true)])
           (VObj [("progressive", VBool true)])).
  - reflexivity.
  - reflexivity.
  - reflexivity.
  - reflexivity.
  - intros k Hq Hc. simpl.
    destruct (String.eqb_spec k "quality"); [contradiction|].
    destruct (String.eqb_spec k "compressionLevel"); [contradiction|reflexivity].
Defined.

(** X7. compress reads the image's metadata first: when sharp cannot
    decode the buffer, compress fails with sharp's message, whatever
    format and quality the options name. *)
Theorem compress_needs_metadata
    (lib : Backend) (this : ImageProcessor.Config) (b : Buffer) (options : value)
    (m : string)
    (Hdecode : metadata lib (VBuf b) = Throw m) :
  ImageProcessor.compress lib this b options
    = Throw ("Failed to compress image: " +:+ m).
Proof.
  unfold ImageProcessor.compress. rewrite Hdecode. reflexivity.
Qed.

Lemma compress_needs_metadata_witness :
  ImageProcessor.compress (Memory.sharp 100) imageProcessor [x00; x01]
    (VObj [("format", VStr "png")])
  = Throw ("Failed to compress image: "
           +:+ "Input buffer contains unsupported image format").
Proof.
  apply (compress_needs_metadata (Memory.sharp 100) imageProcessor [x00; x01]
           (VObj [("format", VStr "png")])).
  reflexivity.
Defined.

Lemma sublist_when (c : bool) (op : Op) (rest : list Op) (names : list string) :
  sublist (map call_name rest) names ->
  sublist (map call_name ((if c then [op] else []) ++ rest)) (call_name op :: names).
Proof. intros Hrest. destruct c; simpl; now constructor. Qed.

(** X8. applyFilters builds one sharp instance on the buffer and calls,
    in this order and at most once each, grayscale, tint (sepia), blur,
    sharpen, modulate (brightness), linear (contrast), modulate
    (saturation); when no filter field is set it makes no call. *)
Theorem applyFilters_order (b : Buffer) (filters : value) :
  exists calls,
    (forall lib, ImageProcessor.applyFilters lib b filters
                 = rethrow "Failed to apply filters: "
                     (toBuffer lib {| input := VBuf b; calls := calls |}))
    /\ sublist (map call_name calls) filter_calls
    /\ ((forall k, In k filter_fields -> truthy (get k filters) = false) -> calls = []).
Proof.
  set (on := fun k => truthy (get k filters)).
  set (blurAmount := if ImageProcessor.is_number (get "blur" filters)
                     then get "blur" filters else VNum 1).
  exists ((if on "grayscale" then [grayscale] else [])
          ++ (if on "sepia" then [tint 255 238 196] else [])
          ++ (if on "blur" then [blur blurAmount] else [])
          ++ (if on "sharpen" then [sharpen] else [])
          ++ (if on "brightness" then [modulate "brightness" (get "brightness" filters)]
              else [])
          ++ (if on "contrast" then [linear (get "contrast" filters)] else [])
          ++ (if on "saturation" then [modulate "saturation" (get "saturation" filters)]
              else []))%list.
  split; [|split].
  - intros lib. unfold ImageProcessor.applyFilters, ImageProcessor.when.
    fold (on "grayscale"). fold (on "sepia"). fold (on "blur"). fold (on "sharpen").
    fold (on "brightness"). fold (on "contrast"). fold (on "saturation").
    destruct (on "grayscale"), (on "sepia"), (on "blur"), (on "sharpen"),
      (on "brightness"), (on "contrast"), (on "saturation"); reflexivity.
  - unfold filter_calls.
    repeat (apply sublist_when).
    destruct (on "saturation"); repeat constructor.
  - intros Hnone. unfold on.
    rewrite !Hnone by (unfold filter_fields; simpl; tauto). reflexivity.
Qed.

(** X9. A specification none of whose fields is set gives the buffer back
    as it is: no stage runs and sharp is not called. *)
Theorem transform_nothing_requested
    (lib : Backend) (this : ImageProcessor.Config) (b : Buffer) (t : value)
    (Hnone : forall s, truthy (get (PipelineSpec.field_of s) t) = false) :
  ImageProcessor.transform lib this b t = Ok b.
Proof.
  unfold ImageProcessor.transform.
  pose proof (Hnone PipelineSpec.Rotate) as H1. pose proof (Hnone PipelineSpec.Flip) as H2.
  pose proof (Hnone PipelineSpec.Mirror) as H3. pose proof (Hnone PipelineSpec.Crop) as H4.
  pose proof (Hnone PipelineSpec.Resize) as H5.
  pose proof (Hnone PipelineSpec.Filters) as H6.
  pose proof (Hnone PipelineSpec.Watermark) as H7.
  pose proof (Hnone PipelineSpec.Compress) as H8.
  pose proof (Hnone PipelineSpec.FormatConversion) as H9.
  simpl in H1, H2, H3, H4, H5, H6, H7, H8, H9.
  rewrite H1, H2, H3, H4, H5, H6, H7, H8, H9. reflexivity.
Qed.

Lemma transform_nothing_requested_witness :
  ImageProcessor.transform (Memory.sharp 100) imageProcessor sample_buffer
    (VObj [("flip", VBool false); ("rotate", VNum 0); ("formatOptions", VObj [])])
  = Ok sample_buffer.
Proof.
  apply (transform_nothing_requested (Memory.sharp 100) imageProcessor sample_buffer
           (VObj [("flip", VBool false); ("rotate", VNum 0); ("formatOptions", VObj [])])).
  intros s. destruct s; reflexivity.
Defined.

(** * Further properties of the queue module *)

(** X10. The reconnection delay starts at 100 ms times 2^times and is
    capped at 30 seconds, which it reaches from the ninth retry on. *)
Theorem retryStrategy_capped (times : Z) (Htimes : 0 <= times) :
  RedisConfig.retryStrategy times = (if times <=? 8 then 100 * 2 ^ times else 30000)
  /\ 100 <= RedisConfig.retryStrategy times <= 30000.
Proof.
  unfold RedisConfig.retryStrategy.
  destruct (times <=? 8) eqn:Hsmall.
  - apply Z.leb_le in Hsmall.
    assert (Hcases : times = 0 \/ times = 1 \/ times = 2 \/ times = 3 \/ times = 4
                     \/ times = 5 \/ times = 6 \/ times = 7 \/ times = 8) by lia.
    repeat (destruct Hcases as [-> | Hcases]); try subst times;
      (split; [reflexivity | vm_compute; split; discriminate]).
  - apply Z.leb_gt in Hsmall.
    assert (Hpow : 2 ^ 9 <= 2 ^ times) by (apply Z.pow_le_mono_r; lia).
    change (2 ^ 9) with 512 in Hpow. lia.
Qed.

Lemma retryStrategy_capped_witness :
  RedisConfig.retryStrategy 3 = (if 3 <=? 8 then 100 * 2 ^ 3 else 30000)
  /\ 100 <= RedisConfig.retryStrategy 3 <= 30000.
Proof. apply (retryStrategy_capped 3). lia. Defined.

(** X11. The reconnection delay never decreases from one retry to the
    next. *)
Theorem retryStrategy_monotone (times times' : Z)
    (Htimes : 0 <= times) (Hlater : times <= times') :
  RedisConfig.retryStrategy times <= RedisConfig.retryStrategy times'.
Proof.
  unfold RedisConfig.retryStrategy.
  assert (Hpow : 2 ^ times <= 2 ^ times') by (apply Z.pow_le_mono_r; lia).
  lia.
Qed.

Lemma retryStrategy_monotone_witness :
  RedisConfig.retryStrategy 8 <= RedisConfig.retryStrategy 9.
Proof. apply (retryStrategy_monotone 8 9); lia. Defined.

(** ** sanitizeRedisUrl *)

Import JsString.

#[local] Arguments String.append !_ _ / : simpl nomatch.

Lemma append_assoc_string (a b c : string) : (a +:+ b) +:+ c = a +:+ (b +:+ c).
Proof. induction a as [|x a IH]; simpl; [reflexivity|]. now f_equal. Qed.

Lemma append_empty_r (a : string) : a +:+ "" = a.
Proof. induction a as [|x a IH]; simpl; [reflexivity|]. now f_equal. Qed.

Lemma includes_trimStart c s : includes c s = false -> includes c (trimStart s) = false.
Proof.
  induction s as [|x s IH]; simpl; [reflexivity|].
  intros H. apply orb_false_iff in H as [Hx Hs].
  destruct (is_space x); [now apply IH|]. simpl. now rewrite Hx, Hs.
Qed.

Lemma includes_trimEnd c s : includes c s = false -> includes c (trimEnd s) = false.
Proof.
  induction s as [|x s IH]; simpl; [reflexivity|].
  intros H. apply orb_false_iff in H as [Hx Hs].
  destruct (is_space x && String.eqb (trimEnd s) ""); [reflexivity|].
  simpl. rewrite Hx. now apply IH.
Qed.

Lemma includes_trim c s : includes c s = false -> includes c (trim s) = false.
Proof. intros H. unfold trim. now apply includes_trimEnd, includes_trimStart. Qed.

Lemma startsWith_includes c s : includes c s = false -> startsWith c s = false.
Proof.
  destruct s as [|x s]; simpl; [reflexivity|].
  intros H. now apply orb_false_iff in H as [-> _].
Qed.

Lemma endsWith_includes c s : includes c s = false -> endsWith c s = false.
Proof.
  induction s as [|x s IH]; simpl; [reflexivity|].
  intros H. apply orb_false_iff in H as [Hx Hs].
  destruct s; [exact Hx | now apply IH].
Qed.

(** Without a [<] nothing matches. *)
Lemma unwrap_no_open s : includes "<" s = false -> unwrap_angles None s = s.
Proof.
  induction s as [|x s IH]; simpl; [reflexivity|].
  intros H. apply orb_false_iff in H as [Hx Hs].
  rewrite Hx. now rewrite IH.
Qed.

(** Without a [>] nothing matches either, whatever is pending. *)
Lemma unwrap_pending_no_close s : forall acc,
  includes ">" s = false -> unwrap_angles (Some acc) s = String "<" (acc +:+ s).
Proof.
  induction s as [|x s IH]; simpl; intros acc H.
  - now rewrite append_empty_r.
  - apply orb_false_iff in H as [Hx Hs]. rewrite Hx.
    rewrite IH by exact Hs. rewrite append_assoc_string. reflexivity.
Qed.

Lemma unwrap_no_close s : includes ">" s = false -> unwrap_angles None s = s.
Proof.
  induction s as [|x s IH]; simpl; [reflexivity|].
  intros H. apply orb_false_iff in H as [Hx Hs].
  destruct (Ascii.eqb_spec x "<") as [->|Hne].
  - now rewrite unwrap_pending_no_close.
  - now rewrite IH.
Qed.

Lemma unwrap_prefix a s :
  includes "<" a = false -> unwrap_angles None (a +:+ s) = a +:+ unwrap_angles None s.
Proof.
  induction a as [|x a IH]; simpl; [reflexivity|].
  intros H. apply orb_false_iff in H as [Hx Ha]. rewrite Hx. now rewrite IH.
Qed.

Lemma unwrap_pending_close p : forall acc rest,
  includes ">" p = false -> acc +:+ p <> "" ->
  unwrap_angles (Some acc) (p +:+ String ">" rest)
    = (acc +:+ p) +:+ unwrap_angles None rest.
Proof.
  induction p as [|x p IH]; simpl; intros acc rest H Hne.
  - rewrite append_empty_r in *.
    destruct (String.eqb_spec acc ""); [contradiction|reflexivity].
  - apply orb_false_iff in H as [Hx Hp]. rewrite Hx.
    rewrite IH; [rewrite (append_assoc_string acc (String x "") p); reflexivity
               | exact Hp |].
    rewrite (append_assoc_string acc (String x "") p). exact Hne.
Qed.

Lemma endsWith_append c a b : b <> "" -> endsWith c (a +:+ b) = endsWith c b.
Proof.
  intros Hb. induction a as [|x a IH]; simpl; [reflexivity|].
  rewrite IH. destruct (a +:+ b) eqn:Heq; [|reflexivity].
  destruct a; simpl in Heq; [contradiction|discriminate].
Qed.

Lemma dropLast_append_one a c : dropLast (a +:+ String c "") = a.
Proof.
  induction a as [|x a IH]; simpl; [reflexivity|].
  rewrite IH. destruct (a +:+ String c "") eqn:Heq; [|reflexivity].
  destruct a; discriminate.
Qed.

(** X12. A Redis URL that has no [<] or no [>] is only trimmed. *)
Theorem sanitizeRedisUrl_plain (raw : string)
    (Hraw : raw <> "")
    (Hplain : includes "<" raw = false \/ includes ">" raw = false) :
  RedisConfig.sanitizeRedisUrl (Some raw) = Some (trim raw).
Proof.
  unfold RedisConfig.sanitizeRedisUrl.
  destruct (String.eqb_spec raw ""); [contradiction|].
  f_equal. destruct Hplain as [Hopen | Hclose].
  - rewrite (startsWith_includes _ _ (includes_trim _ _ Hopen)). simpl.
    apply unwrap_no_open. now apply includes_trim.
  - rewrite (endsWith_includes _ _ (includes_trim _ _ Hclose)).
    rewrite andb_false_r. apply unwrap_no_close. now apply includes_trim.
Qed.

Lemma sanitizeRedisUrl_plain_witness :
  RedisConfig.sanitizeRedisUrl (Some "  redis://cache:6379 ")
    = Some (trim "  redis://cache:6379 ").
Proof.
  apply (sanitizeRedisUrl_plain "  redis://cache:6379 ").
  - discriminate.
  - left. reflexivity.
Defined.

Lemma endsWith_wrapped p : endsWith ">" (String "<" (p +:+ String ">" "")) = true.
Proof.
  change (String "<" (p +:+ String ">" "")) with (String "<" p +:+ String ">" "").
  rewrite endsWith_append by discriminate. reflexivity.
Qed.

Lemma endsWith_tail p y b :
  includes ">" (String y b) = false ->
  endsWith ">" (String "<" (p +:+ String ">" (String y b))) = false.
Proof.
  intros Hb.
  replace (String "<" (p +:+ String ">" (String y b)))
    with ((String "<" p +:+ String ">" "") +:+ String y b)
    by (rewrite append_assoc_string; reflexivity).
  rewrite endsWith_append by discriminate. now apply endsWith_includes.
Qed.

(** X13. One bracketed part of a trimmed Redis URL, whether it is the
    whole URL or only the password, loses its angle brackets and keeps
    its text: [a<p>b] becomes [apb]. *)
Theorem sanitizeRedisUrl_unwraps (a p b : string)
    (Ha : includes "<" a = false)
    (Hp : includes ">" p = false)
    (Hb : includes ">" b = false)
    (Hfilled : p <> "")
    (Htrimmed : trim (a +:+ String "<" (p +:+ String ">" b))
                = a +:+ String "<" (p +:+ String ">" b)) :
  RedisConfig.sanitizeRedisUrl (Some (a +:+ String "<" (p +:+ String ">" b)))
    = Some (a +:+ p +:+ b).
Proof.
  unfold RedisConfig.sanitizeRedisUrl.
  destruct (String.eqb_spec (a +:+ String "<" (p +:+ String ">" b)) "") as [Heq|_].
  { destruct a; discriminate. }
  rewrite Htrimmed. f_equal.
  assert (Hgeneral : unwrap_angles None (a +:+ String "<" (p +:+ String ">" b))
                     = a +:+ p +:+ b).
  { rewrite unwrap_prefix by exact Ha. simpl.
    rewrite unwrap_pending_close; [|exact Hp|simpl; exact Hfilled].
    simpl. now rewrite unwrap_no_close. }
  destruct a as [|x a].
  - change ("" +:+ String "<" (p +:+ String ">" b))
      with (String "<" (p +:+ String ">" b)) in *.
    replace (startsWith "<" (String "<" (p +:+ String ">" b))) with true by reflexivity.
    destruct b as [|y b].
    + rewrite endsWith_wrapped. cbn [andb]. unfold slice_1_m1.
      rewrite dropLast_append_one.
      change ("" +:+ p +:+ "") with (p +:+ ""). rewrite append_empty_r.
      now apply unwrap_no_close.
    + rewrite endsWith_tail by exact Hb. cbn [andb]. exact Hgeneral.
  - cbn [includes] in Ha. apply orb_false_iff in Ha as [Hx Ha].
    replace (startsWith "<" (String x a +:+ String "<" (p +:+ String ">" b)))
      with false by (cbn [String.append startsWith]; now rewrite Hx).
    cbn [andb]. apply Hgeneral.
Qed.

Lemma sanitizeRedisUrl_unwraps_witness :
  RedisConfig.sanitizeRedisUrl (Some "redis://default:<secret>@cache:6379")
    = Some ("redis://default:" +:+ "secret" +:+ "@cache:6379").
Proof.
  apply (sanitizeRedisUrl_unwraps "redis://default:" "secret" "@cache:6379").
  - reflexivity.
  - reflexivity.
  - reflexivity.
  - discriminate.
  - reflexivity.
Defined.

(** ** The processors and their effects *)

Lemma getJob_add name data opts now jobId (q : Bull.Queue) other :
  Bull.getJob other (snd (Bull.add name data opts now jobId q))
  = match Bull.getJob other q with
    | Some job => Some job
    | None => if String.eqb jobId other
              then Some (fst (Bull.add name data opts now jobId q))
              else None
    end.
Proof.
  unfold Bull.add, Bull.getJob. cbn [fst snd].
  induction q as [|j q IH]; cbn [find app Bull.id]; [reflexivity|].
  destruct (String.eqb (Bull.id j) other); [reflexivity|exact IH].
Qed.

(** X14. A transform job just added under an unused id is what
    getJobStatus reports for that id: progress 0, state waiting, the
    payload as submitted and no timestamps yet; the status of every other
    id is as before. *)
Theorem getJobStatus_after_add
    (imageId transformations userId : value) (now : Z) (jobId other : string)
    (q : Bull.Queue)
    (Hfresh : Bull.getJob jobId q = None)
    (Hother : other <> jobId) :
  QueueExports.getJobStatus jobId
    (snd (addTransformJob imageId transformations userId now jobId q))
  = VObj [("id", VStr jobId);
          ("progress", VNum 0);
          ("state", VStr "waiting");
          ("data", VObj [("imageId", imageId); ("transformations", transformations);
                         ("userId", userId)]);
          ("processedOn", VUndefined);
          ("finishedOn", VUndefined);
          ("failedReason", VUndefined)]
  /\ QueueExports.getJobStatus other
       (snd (addTransformJob imageId transformations userId now jobId q))
     = QueueExports.getJobStatus other q.
Proof.
  unfold QueueExports.getJobStatus, addTransformJob. rewrite !getJob_add.
  rewrite Hfresh, String.eqb_refl. split; [reflexivity|].
  destruct (Bull.getJob other q); [reflexivity|].
  destruct (String.eqb_spec jobId other); [congruence|reflexivity].
Qed.

Lemma getJobStatus_after_add_witness :
  QueueExports.getJobStatus "2"
    (snd (addTransformJob (VStr "img1") (VObj [("flip", VBool true)]) (VStr "bob")
            1700000000700 "2" alice_queue))
  = VObj [("id", VStr "2");
          ("progress", VNum 0);
          ("state", VStr "waiting");
          ("data", VObj [("imageId", VStr "img1");
                         ("transformations", VObj [("flip", VBool true)]);
                         ("userId", VStr "bob")]);
          ("processedOn", VUndefined);
          ("finishedOn", VUndefined);
          ("failedReason", VUndefined)]
  /\ QueueExports.getJobStatus "1"
       (snd (addTransformJob (VStr "img1") (VObj [("flip", VBool true)]) (VStr "bob")
               1700000000700 "2" alice_queue))
     = QueueExports.getJobStatus "1" alice_queue.
Proof.
  apply (getJobStatus_after_add (VStr "img1") (VObj [("flip", VBool true)]) (VStr "bob")
           1700000000700 "2" "1" alice_queue).
  - reflexivity.
  - discriminate.
Defined.

(** X15. When the pipeline fails, the transform job fails with the
    pipeline's message as it is, after its third progress report, and
    nothing has been written: no upload, no record, no usage update. *)
Theorem transform_job_pipeline_failure
    {W User : Type} `{!Collaborators W User}
    (lib : Backend) (config : ImageProcessor.Config) (s3Service : S3Service.Config)
    (now : Z) (newId : string) (job_data : value) (w : W)
    (image : ImageDoc) (original : Buffer) (m : string)
    (Hfound : Image_findById (get "imageId" job_data) w = Ok (Some image))
    (Hbytes : s3_get (s3Key image) w = Ok original)
    (Hfails : ImageProcessor.transform lib config original
                (get "transformations" job_data) = Throw m) :
  process_transform lib config s3Service now newId job_data
    {| world := w; reported := [] |}
  = (Throw m, {| world := w; reported := [10; 20; 40] |}).
Proof.
  unfold process_transform, S3Service.downloadFile. run_monad.
  rewrite Hfound. cbn beta iota zeta. cbn [world reported app].
  rewrite Hbytes. cbn [rethrow]. cbn beta iota zeta. cbn [world reported app].
  rewrite Hfails. reflexivity.
Qed.

Lemma transform_job_pipeline_failure_witness :
  process_transform (Memory.sharp 100) imageProcessor Fixture.s3Service
    1700000001000 "img2"
    (VObj [("imageId", VStr "img1");
           ("transformations", VObj [("resize", VObj [("width", VNum 5000)])]);
           ("userId", VStr "alice")])
    {| world := Fixture.png_world; reported := [] |}
  = (Throw ("Failed to transform image: Failed to resize image: "
            +:+ "Maximum dimension allowed is 4000px"),
     {| world := Fixture.png_world; reported := [10; 20; 40] |}).
Proof.
  apply (transform_job_pipeline_failure (Memory.sharp 100) imageProcessor Fixture.s3Service
           1700000001000 "img2" _ Fixture.png_world
           (Fixture.image x89 "image/png" "png") (Fixture.bytes x89)).
  - vm_compute. reflexivity.
  - vm_compute. reflexivity.
  - vm_compute. reflexivity.
Defined.

(** X16. Both processors stop at a missing image: when the job's image
    is not found, the job fails with "Image not found" after its first
    progress report and nothing is read from or written to storage. *)
Theorem job_image_not_found
    {W User : Type} `{!Collaborators W User}
    (lib : Backend) (config : ImageProcessor.Config) (s3Service : S3Service.Config)
    (now : Z) (newId : string) (job_data : value) (w : W)
    (Hmissing : Image_findById (get "imageId" job_data) w = Ok None) :
  process_transform lib config s3Service now newId job_data
    {| world := w; reported := [] |}
  = (Throw "Image not found", {| world := w; reported := [10] |})
  /\ process_optimize lib config s3Service job_data {| world := w; reported := [] |}
     = (Throw "Image not found", {| world := w; reported := [10] |}).
Proof.
  unfold process_transform, process_optimize. run_monad.
  rewrite Hmissing. split; reflexivity.
Qed.

Lemma job_image_not_found_witness :
  process_transform (Memory.sharp 100) imageProcessor Fixture.s3Service
    1700000001000 "img2" Fixture.transform_data {| world := empty_world; reported := [] |}
  = (Throw "Image not found", {| world := empty_world; reported := [10] |})
  /\ process_optimize (Memory.sharp 100) imageProcessor Fixture.s3Service
       Fixture.transform_data {| world := empty_world; reported := [] |}
     = (Throw "Image not found", {| world := empty_world; reported := [10] |}).
Proof.
  apply (job_image_not_found (Memory.sharp 100) imageProcessor Fixture.s3Service
           1700000001000 "img2" Fixture.transform_data empty_world).
  reflexivity.
Defined.



(** ** What the processors write *)

Section Writes.

Variable User : Type.
Variable find_image : value -> result (option ImageDoc).
Variable get_object : string -> result Buffer.
Variable find_user : value -> result (option User).
Variable lib : Backend.
Variable config : ImageProcessor.Config.
Variable s3Service : S3Service.Config.

Let recorder := Recorder.collaborators User find_image get_object find_user.


(** X19. An optimize job that resolves has written nothing when the
    re-encoded bytes are not under 80% of the recorded size; otherwise it
    has made exactly three writes: the bytes put back under the image's
    own key and MIME type, the image document saved with the new size
    and nothing else changed, and the owner's usage lowered by the bytes
    saved. *)
Theorem optimize_job_writes job_data ret s :
  @process_optimize _ _ recorder lib config s3Service job_data
    {| world := []; reported := [] |} = (Ok ret, s) ->
  exists image original optimized,
    find_image (get "imageId" job_data) = Ok (Some image)
    /\ get_object (s3Key image) = Ok original
    /\ ImageProcessor.compress lib config original
         (VObj [("quality", VNum 85); ("format", of_option_string (format image))])
       = Ok optimized
    /\ (if 5 * Z.of_nat (length optimized) <? 4 * size image
        then exists user,
               find_user (userId image) = Ok (Some user)
               /\ world s
                  = [Recorder.Put (s3Key image) optimized (Store.mimeType image);
                     Recorder.Save (set_size image (Z.of_nat (length optimized)));
                     Recorder.Usage user (Z.of_nat (length optimized) - size image)]
        else world s = []).
Proof.
  unfold process_optimize, S3Service.uploadFile, S3Service.downloadFile, recorder.
  run_monad. cbn [Image_findById s3_get s3_put Image_save User_findById
                  updateStorageUsage Recorder.collaborators].
  intros Hrun.
  repeat (run_step; run_monad; cbn [app] in * ); try discriminate;
    match goal with
    | H : rethrow _ (get_object _) = Ok _ |- _ =>
        unfold rethrow in H; destruct (get_object _) eqn:Hget in H; [|discriminate];
        inversion H; subst; clear H
    end;
    (do 3 eexists; repeat split; try eassumption);
    rewrite <- reduced_enough_spec;
    match goal with H : reduced_enough _ _ = _ |- _ => rewrite H end;
    try reflexivity.
  eexists. split; [eassumption|].
  cbn [set_size userId s3Key Store.mimeType size].
  do 3 f_equal. f_equal. lia.
Qed.

End Writes.


Lemma optimize_job_writes_witness :
  let run := @process_optimize _ _
               (Recorder.collaborators string recorded_image recorded_object recorded_user)
               (Memory.sharp 50) imageProcessor Fixture.s3Service
               Fixture.optimize_data {| world := []; reported := [] |} in
  exists image original optimized,
    recorded_image (get "imageId" Fixture.optimize_data) = Ok (Some image)
    /\ recorded_object (s3Key image) = Ok original
    /\ ImageProcessor.compress (Memory.sharp 50) imageProcessor original
         (VObj [("quality", VNum 85); ("format", of_option_string (format image))])
       = Ok optimized
    /\ (if 5 * Z.of_nat (length optimized) <? 4 * size image
        then exists user,
               recorded_user (userId image) = Ok (Some user)
               /\ world (snd run)
                  = [Recorder.Put (s3Key image) optimized (Store.mimeType image);
                     Recorder.Save (set_size image (Z.of_nat (length optimized)));
                     Recorder.Usage user (Z.of_nat (length optimized) - size image)]
        else world (snd run) = []).
Proof.
  intros run.
  apply (optimize_job_writes string recorded_image recorded_object recorded_user
           (Memory.sharp 50) imageProcessor Fixture.s3Service
           Fixture.optimize_data optimize_payload (snd run)).
  vm_compute. reflexivity.
Defined.

(** ** Retries *)

(** X20. With the options the service queues them with, a transform job
    is given three attempts and an optimize job two: after each failure
    but the last the job waits for its retry, and the last failure puts
    it in the failed set with that failure's reason and time. *)
Theorem retry_budget
    (transform optimize : Bull.Job) (r1 r2 r3 : string) (t1 t2 t3 : Z)
    (Htransform : Bull.opts transform = transformOptions)
    (Hoptimize : Bull.opts optimize = optimizeOptions)
    (Hnew : Bull.attemptsMade transform = 0)
    (Hnew' : Bull.attemptsMade optimize = 0) :
  (exists j1 j2 j3,
      Bull.moveToFailed r1 t1 transform = Some j1 /\ Bull.state j1 = Bull.delayed
      /\ Bull.moveToFailed r2 t2 j1 = Some j2 /\ Bull.state j2 = Bull.delayed
      /\ Bull.moveToFailed r3 t3 j2 = Some j3 /\ Bull.state j3 = Bull.failed
      /\ Bull.failedReason j3 = Some r3 /\ Bull.finishedOn j3 = Some t3
      /\ Bull.attemptsMade j3 = 3)
  /\ (exists j1 j2,
      Bull.moveToFailed r1 t1 optimize = Some j1 /\ Bull.state j1 = Bull.delayed
      /\ Bull.moveToFailed r2 t2 j1 = Some j2 /\ Bull.state j2 = Bull.failed
      /\ Bull.failedReason j2 = Some r2 /\ Bull.finishedOn j2 = Some t2
      /\ Bull.attemptsMade j2 = 2).
Proof.
  split.
  - unfold Bull.moveToFailed at 1. rewrite Htransform, Hnew. cbn.
    do 3 eexists. split; [reflexivity|]. split; [reflexivity|].
    unfold Bull.moveToFailed at 1. cbn. rewrite Htransform. cbn.
    split; [reflexivity|]. split; [reflexivity|].
    unfold Bull.moveToFailed. cbn. rewrite Htransform. cbn.
    repeat split; reflexivity.
  - unfold Bull.moveToFailed at 1. rewrite Hoptimize, Hnew'. cbn.
    do 2 eexists. split; [reflexivity|]. split; [reflexivity|].
    unfold Bull.moveToFailed. cbn. rewrite Hoptimize. cbn.
    repeat split; reflexivity.
Qed.

Lemma retry_budget_witness :
  (exists j1 j2 j3,
      Bull.moveToFailed "first" 10 transform_job = Some j1 /\ Bull.state j1 = Bull.delayed
      /\ Bull.moveToFailed "second" 20 j1 = Some j2 /\ Bull.state j2 = Bull.delayed
      /\ Bull.moveToFailed "third" 30 j2 = Some j3 /\ Bull.state j3 = Bull.failed
      /\ Bull.failedReason j3 = Some "third" /\ Bull.finishedOn j3 = Some 30
      /\ Bull.attemptsMade j3 = 3)
  /\ (exists j1 j2,
      Bull.moveToFailed "first" 10 optimize_job = Some j1 /\ Bull.state j1 = Bull.delayed
      /\ Bull.moveToFailed "second" 20 j1 = Some j2 /\ Bull.state j2 = Bull.failed
      /\ Bull.failedReason j2 = Some "second" /\ Bull.finishedOn j2 = Some 20
      /\ Bull.attemptsMade j2 = 2).
Proof.
  apply (retry_budget transform_job optimize_job "first" "second" "third" 10 20 30);
    reflexivity.
Defined.

(** ** The job routes *)

Lemma strict_eq_string_eq (v : value) (s : string) :
  strict_eq_string v s = true -> v = VStr s.
Proof.
  destruct v; simpl; try discriminate. intros H. apply String.eqb_eq in H. now subst.
Qed.

(** X21. The listing is filtered by owner: every job it returns is one of
    the jobs read from the queue whose payload carries the requester's
    id, and totalJobs counts the jobs returned, not the jobs queued. *)
Theorem list_jobs_owner_only
    (user_id : string) (page : value) (jobs : list Bull.Job) (item : value)
    (Hitem : In item (listed (list_jobs user_id page jobs))) :
  get "userId" (get "data" item) = VStr user_id
  /\ (exists job, In job jobs /\ item = job_json job)
  /\ get "totalJobs" (get "pagination" (get "data" (body (list_jobs user_id page jobs))))
     = VNum (inject_Z (Z.of_nat (length (listed (list_jobs user_id page jobs)))))
  /\ status (list_jobs user_id page jobs) = 200.
Proof.
  unfold listed, list_jobs in *. cbn in Hitem |- *.
  apply in_map_iff in Hitem as [job [<- Hin]].
  apply filter_In in Hin as [Hin Howned].
  unfold owned_by in Howned. apply andb_true_iff in Howned as [_ Hid].
  split; [cbn; now apply strict_eq_string_eq|].
  split; [now exists job|].
  split; [|reflexivity].
  now rewrite length_map.
Qed.

Lemma list_jobs_owner_only_witness :
  get "userId" (get "data" (job_json transform_job)) = VStr "alice"
  /\ (exists job, In job mixed_queue /\ job_json transform_job = job_json job)
  /\ get "totalJobs"
       (get "pagination" (get "data" (body (list_jobs "alice" (VNum 1) mixed_queue))))
     = VNum (inject_Z (Z.of_nat (length (listed (list_jobs "alice" (VNum 1) mixed_queue)))))
  /\ status (list_jobs "alice" (VNum 1) mixed_queue) = 200.
Proof.
  apply (list_jobs_owner_only "alice" (VNum 1) mixed_queue (job_json transform_job)).
  left. reflexivity.
Defined.

(** X22. The status route answers 404 exactly when no job in the queue
    has the id asked for, and 200 otherwise. *)
Theorem get_job_not_found_iff (user_id id : string) (q : Bull.Queue) :
  (status (get_job user_id id q) = 404 <-> forall job, In job q -> Bull.id job <> id)
  /\ (status (get_job user_id id q) = 200 <-> exists job, In job q /\ Bull.id job = id).
Proof.
  unfold get_job, Bull.getJob.
  destruct (find (fun j => String.eqb (Bull.id j) id) q) as [job|] eqn:Hfind; cbn.
  - apply find_some in Hfind as [Hin Hid]. apply String.eqb_eq in Hid.
    split; split; try discriminate; try tauto.
    + intros Hnone. exfalso. exact (Hnone job Hin Hid).
    + intros _. now exists job.
  - split; split; try discriminate; try tauto.
    + intros _ job Hin. apply (find_none _ _ Hfind) in Hin. now apply String.eqb_neq.
    + intros [job [Hin Hid]]. apply (find_none _ _ Hfind) in Hin.
      apply String.eqb_neq in Hin. contradiction.
Qed.

(** ** Public URLs *)

Lemma append_inj_prefix (p a b : string) : p +:+ a = p +:+ b -> a = b.
Proof.
  induction p as [|x p IH]; intros H; [exact H|].
  apply IH. now inversion H.
Qed.

(** X23. Distinct object keys have distinct public URLs, in every region. *)
Theorem generatePublicUrl_injective (this : S3Service.Config) (key key' : string)
    (Hdistinct : key <> key') :
  S3Service.generatePublicUrl this key <> S3Service.generatePublicUrl this key'.
Proof.
  intros Heq. apply Hdistinct. unfold S3Service.generatePublicUrl in Heq.
  destruct (String.eqb (S3Service.region this) "us-east-1").
  - now repeat apply append_inj_prefix in Heq.
  - now repeat apply append_inj_prefix in Heq.
Qed.

Lemma generatePublicUrl_injective_witness :
  S3Service.generatePublicUrl Fixture.s3Service "images/alice/a.png"
  <> S3Service.generatePublicUrl Fixture.s3Service "images/alice/b.png".
Proof.
  apply (generatePublicUrl_injective Fixture.s3Service
           "images/alice/a.png" "images/alice/b.png").
  discriminate.
Defined.

(** ** Pagination and tags of the image routes *)

Lemma Qceiling_div (t l : Z) :
  0 < l -> Qceiling (inject_Z t / inject_Z l) = (t + l - 1) / l.
Proof.
  intros Hl. destruct l as [|l|l]; try lia.
  unfold Qceiling, Qfloor, Qdiv, Qmult, Qinv, Qopp, inject_Z. cbn [Qnum Qden].
  rewrite Z.mul_1_r. change (1 * l)%positive with l.
  apply Z.div_unique with (r := Z.pos l - 1 - (- t) mod Z.pos l).
  - left. pose proof (Z.mod_pos_bound (- t) (Z.pos l)). lia.
  - pose proof (Z.div_mod (- t) (Z.pos l)). lia.
Qed.

Lemma below_ceiling (n t l : Z) :
  0 < l -> (n < (t + l - 1) / l <-> n * l < t).
Proof.
  intros Hl.
  pose proof (Z.div_mod (t + l - 1) l) as Hdm.
  pose proof (Z.mod_pos_bound (t + l - 1) l Hl) as Hmod.
  split; intros H; nia.
Qed.

(** X24. For a page of [limit] images out of [totalImages]: totalPages is
    the quotient rounded up; hasNextPage holds exactly when images remain
    after this page; and the page shows something exactly when it is not
    past totalPages. *)
Theorem pagination_pages (page limit total : Z)
    (Hlimit : 1 <= limit) :
  ImagesRoutes.totalPages (ImagesRoutes.pagination page limit total)
    = (total + limit - 1) / limit
  /\ (ImagesRoutes.hasNextPage (ImagesRoutes.pagination page limit total) = true
      <-> page * limit < total)
  /\ (ImagesRoutes.skip page limit < total
      <-> page <= ImagesRoutes.totalPages (ImagesRoutes.pagination page limit total))
  /\ ImagesRoutes.nextPage (ImagesRoutes.pagination page limit total)
     = (if page * limit <? total then Some (page + 1) else None).
Proof.
  unfold ImagesRoutes.pagination, ImagesRoutes.skip.
  cbn [ImagesRoutes.totalPages ImagesRoutes.hasNextPage ImagesRoutes.nextPage].
  rewrite Qceiling_div by lia.
  pose proof (below_ceiling page total limit) as Hnext.
  pose proof (below_ceiling (page - 1) total limit) as Hthis.
  split; [reflexivity|].
  split; [rewrite Z.ltb_lt; apply Hnext; lia|].
  split; [rewrite <- Hthis by lia; lia|].
  destruct (page <? (total + limit - 1) / limit) eqn:Hlt;
    destruct (page * limit <? total) eqn:Hlt'; try reflexivity; exfalso.
  - apply Z.ltb_lt in Hlt. apply Z.ltb_ge in Hlt'. apply Hnext in Hlt; lia.
  - apply Z.ltb_ge in Hlt. apply Z.ltb_lt in Hlt'. apply Hnext in Hlt'; lia.
Qed.

Lemma pagination_pages_witness :
  ImagesRoutes.totalPages (ImagesRoutes.pagination 3 10 25) = (25 + 10 - 1) / 10
  /\ (ImagesRoutes.hasNextPage (ImagesRoutes.pagination 3 10 25) = true <-> 3 * 10 < 25)
  /\ (ImagesRoutes.skip 3 10 < 25
      <-> 3 <= ImagesRoutes.totalPages (ImagesRoutes.pagination 3 10 25))
  /\ ImagesRoutes.nextPage (ImagesRoutes.pagination 3 10 25)
     = (if 3 * 10 <? 25 then Some (3 + 1) else None).
Proof. apply (pagination_pages 3 10 25). lia. Defined.


(** ** The auth middleware *)

Lemma prefix_split (p h : string) :
  String.prefix p h = true -> h = p +:+ JsString.substring_from (String.length p) h.
Proof.
  revert h. induction p as [|x p IH]; intros h H; [reflexivity|].
  destruct h as [|y h]; cbn in H; [discriminate|].
  destruct (ascii_dec x y) as [->|]; [|discriminate].
  change (String y h = String y (p +:+ JsString.substring_from (String.length p) h)).
  f_equal. now apply IH.
Qed.

(** X26. auth lets a request through only with a header "Bearer <token>"
    whose token is not empty and verifies, and whose decoded id names an
    existing active user, which becomes req.user; every other request is
    answered with status 401. *)
Theorem auth_passes_only_verified
    {U : Type} (jwt_verify : string -> result value)
    (User_findById : value -> result (option U)) (isActive : U -> bool)
    (authHeader : option string) :
  match Auth.auth jwt_verify User_findById isActive authHeader with
  | Auth.Next user =>
      exists token decoded,
        authHeader = Some ("Bearer " +:+ token)
        /\ token <> ""
        /\ jwt_verify token = Ok decoded
        /\ User_findById (get "id" decoded) = Ok (Some user)
        /\ isActive user = true
  | Auth.Respond status _ => status = 401
  end.
Proof.
  unfold Auth.auth.
  destruct authHeader as [h|]; [|reflexivity].
  destruct (String.eqb h "" || negb (String.prefix "Bearer " h)) eqn:Hhead;
    [reflexivity|].
  apply orb_false_iff in Hhead as [_ Hprefix]. apply negb_false_iff in Hprefix.
  apply prefix_split in Hprefix. cbn [String.length] in Hprefix.
  destruct (String.eqb_spec (JsString.substring_from 7 h) ""); [reflexivity|].
  destruct (jwt_verify (JsString.substring_from 7 h)) as [decoded|m] eqn:Hverify;
    cbn [bind]; [|reflexivity].
  destruct (User_findById (get "id" decoded)) as [[user|]|m] eqn:Hfind;
    try reflexivity.
  destruct (isActive user) eqn:Hactive; [|reflexivity].
  exists (JsString.substring_from 7 h), decoded.
  repeat split; try assumption. now f_equal.
Qed.

(** ** Upload errors *)

(** X27. A file whose type the filter refuses is answered with status 400
    and the invalid-type message; the error handler answers with status
    400 only, and passes on unchanged every error that is neither one of
    the three multer limits nor marked with status 400. *)
Theorem upload_rejection_answered
    (ALLOWED_FILE_TYPES : option (list string)) (mimetype : string)
    (error : UploadErrors.Error)
    (Hrefused : Upload.fileFilter ALLOWED_FILE_TYPES mimetype = false) :
  (exists e, UploadErrors.fileFilter ALLOWED_FILE_TYPES mimetype = (Some e, false)
             /\ UploadErrors.handleUploadError e
                = UploadErrors.Responded 400 "Invalid file type. Only images are allowed.")
  /\ match UploadErrors.handleUploadError error with
     | UploadErrors.Responded status _ => status = 400
     | UploadErrors.Forwarded e =>
         e = error /\ UploadErrors.statusCode error <> Some 400
     end.
Proof.
  split.
  - unfold UploadErrors.fileFilter. rewrite Hrefused. eexists. split; reflexivity.
  - unfold UploadErrors.handleUploadError.
    destruct (UploadErrors.isMulterError error
              && UploadErrors.code_is error "LIMIT_FILE_SIZE"); [reflexivity|].
    destruct (UploadErrors.isMulterError error
              && UploadErrors.code_is error "LIMIT_FILE_COUNT"); [reflexivity|].
    destruct (UploadErrors.isMulterError error
              && UploadErrors.code_is error "LIMIT_UNEXPECTED_FILE"); [reflexivity|].
    destruct (UploadErrors.statusCode error) as [z|] eqn:Hcode;
      [|split; [reflexivity|discriminate]].
    destruct (Z.eq_dec z 400) as [->|Hne]; [reflexivity|].
    destruct z as [|p|p]; try (split; [reflexivity|congruence]).
    do 9 (destruct p as [p|p|]; try (split; [reflexivity|congruence]));
      exfalso; apply Hne; reflexivity.
Qed.

Lemma upload_rejection_answered_witness :
  (exists e, UploadErrors.fileFilter None "application/pdf" = (Some e, false)
             /\ UploadErrors.handleUploadError e
                = UploadErrors.Responded 400 "Invalid file type. Only images are allowed.")
  /\ match UploadErrors.handleUploadError
             {| UploadErrors.isMulterError := true;
                UploadErrors.code := Some "LIMIT_FILE_SIZE";
                UploadErrors.statusCode := None;
                UploadErrors.message := "File too large" |} with
     | UploadErrors.Responded status _ => status = 400
     | UploadErrors.Forwarded e =>
         e = {| UploadErrors.isMulterError := true;
                UploadErrors.code := Some "LIMIT_FILE_SIZE";
                UploadErrors.statusCode := None;
                UploadErrors.message := "File too large" |}
         /\ UploadErrors.statusCode
              {| UploadErrors.isMulterError := true;
                 UploadErrors.code := Some "LIMIT_FILE_SIZE";
                 UploadErrors.statusCode := None;
                 UploadErrors.message := "File too large" |} <> Some 400
     end.
Proof.
  apply (upload_rejection_answered None "application/pdf"
           {| UploadErrors.isMulterError := true;
              UploadErrors.code := Some "LIMIT_FILE_SIZE";
              UploadErrors.statusCode := None;
              UploadErrors.message := "File too large" |}).
  reflexivity.
Defined.

(** ** The formatted size of an image *)

Lemma Qle_bool_1024 (n : Z) (d : positive) :
  Qle_bool 1024 (n # d) = (1024 * Z.pos d <=? n).
Proof. unfold Qle_bool. cbn [Qnum Qden]. now rewrite Z.mul_1_r. Qed.

Lemma round_hundredths_frac (n : Z) (d : positive) :
  ImageModel.round_hundredths (n # d) = (200 * n + Z.pos d) / (2 * Z.pos d).
Proof.
  unfold ImageModel.round_hundredths, Qfloor, Qplus, Qmult. cbn [Qnum Qden].
  f_equal; lia.
Qed.

(** The loop of [sizeFormatted] resolved: the unit and the number printed. *)
Lemma sizeFormatted_scaled (size : Z) (Hsize : 0 <= size) :
  exists (k : nat),
    k = (if size <? 1024 then 0%nat else if size <? 1024 ^ 2 then 1%nat
         else if size <? 1024 ^ 3 then 2%nat else 3%nat)
    /\ ImageModel.sizeFormatted size
       = ImageModel.show_hundredths
           ((200 * size + 1024 ^ Z.of_nat k) / (2 * 1024 ^ Z.of_nat k))
         +:+ " " +:+ nth k ImageModel.sizes "".
Proof.
  unfold ImageModel.sizeFormatted. cbn [length ImageModel.sizes].
  cbn [ImageModel.scale length ImageModel.sizes Nat.sub Nat.ltb Nat.leb andb].
  unfold Qdiv, Qinv, Qmult, inject_Z. cbn [Qnum Qden].
  rewrite !Qle_bool_1024, !andb_true_r, ?andb_false_r, !Z.mul_1_r.
  change (1 * 1024)%positive with 1024%positive.
  change (1024 * 1024)%positive with 1048576%positive.
  change (1048576 * 1024)%positive with 1073741824%positive.
  change (1024 ^ 2) with 1048576. change (1024 ^ 3) with 1073741824.
  destruct (Z.ltb_spec size 1024);
    [|destruct (Z.ltb_spec size 1048576);
      [|destruct (Z.ltb_spec size 1073741824)]];
    destruct (Z.leb_spec 1024 size); try lia;
    try (destruct (Z.leb_spec (1024 * 1024) size); try lia);
    try (destruct (Z.leb_spec (1024 * 1048576) size); try lia);
    (eexists; split; [reflexivity|]);
    rewrite round_hundredths_frac; reflexivity.
Qed.

(** X28. sizeFormatted picks the unit by powers of 1024, B below 1024 and
    GB from 1024^3 on (there is no larger unit), and prints the size
    divided by that power, rounded to hundredths with halves upwards. *)
Theorem sizeFormatted_unit (size : Z) (Hsize : 0 <= size) :
  exists (k : nat),
    k = (if size <? 1024 then 0%nat else if size <? 1024 ^ 2 then 1%nat
         else if size <? 1024 ^ 3 then 2%nat else 3%nat)
    /\ ImageModel.sizeFormatted size
       = ImageModel.show_hundredths
           ((200 * size + 1024 ^ Z.of_nat k) / (2 * 1024 ^ Z.of_nat k))
         +:+ " " +:+ nth k ImageModel.sizes "".
Proof. exact (sizeFormatted_scaled size Hsize). Qed.

Lemma sizeFormatted_unit_witness :
  exists (k : nat),
    k = (if 1572864 <? 1024 then 0%nat else if 1572864 <? 1024 ^ 2 then 1%nat
         else if 1572864 <? 1024 ^ 3 then 2%nat else 3%nat)
    /\ ImageModel.sizeFormatted 1572864
       = ImageModel.show_hundredths
           ((200 * 1572864 + 1024 ^ Z.of_nat k) / (2 * 1024 ^ Z.of_nat k))
         +:+ " " +:+ nth k ImageModel.sizes "".
Proof. apply (sizeFormatted_unit 1572864). lia. Defined.

(** X29. A size below 1024 bytes is printed as it is, in bytes. *)
Theorem sizeFormatted_bytes (size : Z) (Hsize : 0 <= size < 1024) :
  ImageModel.sizeFormatted size = show_Z size +:+ " B".
Proof.
  destruct (sizeFormatted_scaled size) as [k [Hk Hformat]]; [lia|].
  replace (size <? 1024) with true in Hk by (symmetry; apply Z.ltb_lt; lia).
  subst k. rewrite Hformat. cbn [nth ImageModel.sizes].
  change (1024 ^ Z.of_nat 0) with 1.
  replace ((200 * size + 1) / (2 * 1)) with (100 * size).
  - unfold ImageModel.show_hundredths.
    assert (Hmod : (100 * size) mod 100 = 0)
      by (rewrite Z.mul_comm; apply Z.mod_mul; lia).
    assert (Hdiv : 100 * size / 100 = size)
      by (rewrite Z.mul_comm; apply Z.div_mul; lia).
    rewrite Hmod, Hdiv. reflexivity.
  - apply Z.div_unique with (r := 1); lia.
Qed.

Lemma sizeFormatted_bytes_witness :
  ImageModel.sizeFormatted 512 = show_Z 512 +:+ " B".
Proof. apply (sizeFormatted_bytes 512). lia. Defined.

Example sizeFormatted_examples :
  ImageModel.sizeFormatted 1572864 = "1.5 MB"
  /\ ImageModel.sizeFormatted 1048575 = "1024 KB"
  /\ ImageModel.sizeFormatted 1536 = "1.5 KB"
  /\ ImageModel.sizeFormatted 1100 = "1.07 KB"
  /\ ImageModel.sizeFormatted 0 = "0 B".
Proof. repeat split; vm_compute; reflexivity. Qed.
